(** * ObsidianAnkiBridge: the note model of [src/notes/base.ts]

    A shallow embedding of the note entity ([NoteBase]), its per-note
    configuration ([Config], [ParseConfig]) and its resolvers (deck, tags,
    field mapping), followed by the properties that the specification
    states about them.

    JavaScript strings are modelled as [string]; the only characters the
    code inspects are the ASCII characters '/' and '#', so working on bytes
    or on UTF-16 code units makes no difference.  [undefined] and [null]
    in an optional slot are modelled by [None]. *)

From Stdlib Require Import ZArith String Ascii List Bool Lia.
From stdpp Require Import base option gmap strings list fin_maps.

Local Open Scope Z_scope.
Local Open Scope string_scope.

(** ** JavaScript primitives used by the source *)

(** A call either returns or throws; a rejected promise is a [Throw]. *)
Inductive JSError := TypeError | YAMLException | ValidationError.

Inductive JSResult (A : Type) :=
| Return (a : A)
| Throw (e : JSError).
Arguments Return {A} a.
Arguments Throw {A} e.

#[global] Instance JSResult_ret : MRet JSResult := fun A a => Return a.

#[global] Instance JSResult_bind : MBind JSResult := fun A B k r =>
  match r with
  | Return a => k a
  | Throw e => Throw e
  end.

(** Truthiness of [s : string | null | undefined]: the empty string is
    falsy, as are [null] and [undefined].  [truthy s] is [Some v] exactly
    when [if (s)] takes its branch with [s] equal to [v]. *)
Definition truthy_string (s : string) : bool := negb (String.eqb s "").

Definition truthy (s : option string) : option string :=
  match s with
  | Some v => if truthy_string v then Some v else None
  | None => None
  end.

(** [s || '']. *)
Definition or_empty (s : option string) : string :=
  match truthy s with
  | Some v => v
  | None => ""
  end.

(** [a || []] for an optional array: every array is truthy. *)
Definition or_nil {A} (a : option (list A)) : list A :=
  match a with
  | Some l => l
  | None => []
  end.

(** [s.split(sep)] for a one-character separator: the pieces between the
    occurrences of [sep]; a string without [sep] is its own single piece. *)
Fixpoint split (sep : ascii) (s : string) : list string :=
  match s with
  | EmptyString => [EmptyString]
  | String c s' =>
      if Ascii.eqb c sep then EmptyString :: split sep s'
      else match split sep s' with
           | piece :: pieces => String c piece :: pieces
           | [] => [String c EmptyString]
           end
  end.

(** [pieces.join(sep)]. *)
Fixpoint join (sep : string) (pieces : list string) : string :=
  match pieces with
  | [] => ""
  | [piece] => piece
  | piece :: rest => piece +:+ sep +:+ join sep rest
  end.

(** [s.replace(c, r)] with a one-character string pattern: only the first
    occurrence is replaced. *)
Fixpoint replace (c : ascii) (r : string) (s : string) : string :=
  match s with
  | EmptyString => EmptyString
  | String d s' => if Ascii.eqb d c then r +:+ s' else String d (replace c r s')
  end.

(** [s.replace(/c/g, r)]: every occurrence is replaced. *)
Fixpoint replace_g (c : ascii) (r : string) (s : string) : string :=
  match s with
  | EmptyString => EmptyString
  | String d s' =>
      if Ascii.eqb d c then r +:+ replace_g c r s' else String d (replace_g c r s')
  end.

(** [arr.indexOf(x)]: the first index holding [x], or [-1]. *)
Fixpoint indexOf_from (x : string) (arr : list string) (i : Z) : Z :=
  match arr with
  | [] => -1
  | y :: arr' => if String.eqb y x then i else indexOf_from x arr' (i + 1)
  end.

Definition indexOf (arr : list string) (x : string) : Z := indexOf_from x arr 0.

(** [arr.filter((item, index) => f(item, index))]. *)
Fixpoint filter_from {A} (f : A → Z → bool) (arr : list A) (i : Z) : list A :=
  match arr with
  | [] => []
  | item :: arr' =>
      if f item i then item :: filter_from f arr' (i + 1)
      else filter_from f arr' (i + 1)
  end.

Definition filter_indexed {A} (f : A → Z → bool) (arr : list A) : list A :=
  filter_from f arr 0.

(** ** Entities *)

Record Config := {
  deck : option string;
  tags : option (list string);
  delete : option bool;
  enabled : option bool;
  cloze : option bool;
}.

(** [NoteFields]: the two logical slots, keyed by [NoteField.Frontlike] and
    [NoteField.Backlike]; a slot may hold [null]. *)
Record NoteFields := {
  Frontlike : option string;
  Backlike : option string;
}.

(** [AnkiFields]: remote field name to field text. *)
Abbreviation AnkiFields := (gmap string string).

(** One entry of [NotesInfoResponseEntity.fields]. *)
Record NoteInfoField := {
  value : string;
  order : Z;
}.

Record NotesInfoResponseEntity := {
  noteId : Z;
  modelName : string;
  noteInfo_tags : list string;
  noteInfo_fields : gmap string NoteInfoField;
}.

(** The parts of the global settings that the note model reads.
    [inheritDeck] is compared with [=== false] and [=== true], so it is a
    three-state option; the default-deck mappings are only handed on to
    [getDefaultDeckForFolder]. *)
Record Settings (DefaultDeckMap : Type) := {
  inheritDeck : option bool;
  defaultDeckMaps : list DefaultDeckMap;
  fallbackDeck : string;
  inheritTags : bool;
  tagInAnki : string;
}.
Arguments inheritDeck {DefaultDeckMap} _.
Arguments defaultDeckMaps {DefaultDeckMap} _.
Arguments fallbackDeck {DefaultDeckMap} _.
Arguments inheritTags {DefaultDeckMap} _.
Arguments tagInAnki {DefaultDeckMap} _.

(** ** The note entity and its collaborators *)

Section NoteModel.

(** Collaborators that live outside [src/notes/base.ts]: the rendering
    strategy, the media references, the vault's folders and cached
    metadata (Obsidian), and the default-deck mappings. *)
Variable Blueprint : Type.
Variable Media : Type.
Variable TFolder : Type.
Variable CachedMetadata : Type.
Variable DefaultDeckMap : Type.

(** Obsidian's [TFile], as far as the note model reads it. *)
Record TFile := {
  path : string;
  parent : TFolder;
}.

Record SourceDescriptor := {
  from : Z;
  to : Z;
  file : TFile;
}.

Record NoteBase := {
  blueprint : Blueprint;
  id : option Z;
  fields : NoteFields;
  source : SourceDescriptor;
  sourceText : string;
  config : Config;
  medias : list Media;
  isCloze : bool;
}.

(** The plugin object: its settings and [app.metadataCache.getFileCache]. *)
Record AnkiBridgePlugin := {
  settings : Settings DefaultDeckMap;
  getFileCache : TFile → option CachedMetadata;
}.

(** [blueprint.renderAsText(note)], [getDefaultDeckForFolder(folder, maps)]
    from [utils/file] and Obsidian's [getAllTags(cache)]. *)
Variable Blueprint_renderAsText : Blueprint → NoteBase → string.
Variable getDefaultDeckForFolder : TFolder → list DefaultDeckMap → option string.
Variable getAllTags : CachedMetadata → option (list string).

(** The constructor: [medias] and [isCloze] are optional and default to
    [[]] and [false]. *)
Definition NoteBase_new (blueprint : Blueprint) (id : option Z)
    (fields : NoteFields) (source : SourceDescriptor) (sourceText : string)
    (config : Config) (medias : option (list Media)) (isCloze : option bool)
    : NoteBase :=
  {| blueprint := blueprint;
     id := id;
     fields := fields;
     source := source;
     sourceText := sourceText;
     config := config;
     medias := default [] medias;
     isCloze := default false isCloze |}.

Definition renderAsText (this : NoteBase) : string :=
  Blueprint_renderAsText (blueprint this) this.

Definition fieldsToAnkiFields (this : NoteBase) (fields : NoteFields) : AnkiFields :=
  if isCloze this then
    <["Back Extra" := or_empty (Backlike fields)]>
      (<["Text" := or_empty (Frontlike fields)]> ∅)
  else
    <["Back" := or_empty (Backlike fields)]>
      (<["Front" := or_empty (Frontlike fields)]> ∅).

(** Reading [.value] of a field that the record does not carry throws a
    [TypeError]; the front-like slot is read first. *)
Definition normaliseNoteInfoFields (this : NoteBase)
    (noteInfo : NotesInfoResponseEntity) : JSResult NoteFields :=
  let isCloze := String.eqb (modelName noteInfo) "Cloze" in
  let frontlike := if isCloze then "Text" else "Front" in
  let backlike := if isCloze then "Back Extra" else "Back" in
  match noteInfo_fields noteInfo !! frontlike with
  | None => Throw TypeError
  | Some front =>
      match noteInfo_fields noteInfo !! backlike with
      | None => Throw TypeError
      | Some back =>
          Return {| Frontlike := Some (value front); Backlike := Some (value back) |}
      end
  end.

Definition getEnabled (this : NoteBase) : bool :=
  match enabled (config this) with
  | None => true
  | Some b => b
  end.

Definition shouldUpdateFile (this : NoteBase) : bool :=
  getEnabled this && negb (String.eqb (renderAsText this) (sourceText this)).

Definition getModelName (this : NoteBase) : string :=
  if isCloze this then "Cloze" else "Basic".

(** [if (this.config.deck)] and [if (resolvedDefaultDeck)] test truthiness
    (see [truthy]); leaving the [inheritDeck === false] branch without a
    [return] falls through to the last line. *)
Definition getDeckName (this : NoteBase) (plugin : AnkiBridgePlugin) : string :=
  match inheritDeck (settings plugin) with
  | Some false =>
      match truthy (deck (config this)) with
      | Some d => d
      | None =>
          let resolvedDefaultDeck :=
            getDefaultDeckForFolder (parent (file (source this)))
              (defaultDeckMaps (settings plugin)) in
          match truthy resolvedDefaultDeck with
          | Some r => r
          | None => fallbackDeck (settings plugin)
          end
      end
  | Some true =>
      let deckName := join "::" (split "/" (path (file (source this)))) in
      let deckName := fallbackDeck (settings plugin) +:+ "::" +:+ deckName in
      deckName
  | None => fallbackDeck (settings plugin)
  end.

Definition getTags (this : NoteBase) (plugin : AnkiBridgePlugin) : list string :=
  if inheritTags (settings plugin) then
    match getFileCache plugin (file (source this)) with
    | Some cache =>
        match getAllTags cache with
        | Some tags0 =>
            let tags1 := map (replace "#" "") tags0 in
            let tags2 := map (replace_g "/" "::") tags1 in
            let tags3 := (tags2 ++ or_nil (tags (config this)))%list in
            let tags4 :=
              filter_indexed (fun item index => (indexOf tags3 item =? index)%Z) tags3 in
            tagInAnki (settings plugin) :: tags4
        | None => tagInAnki (settings plugin) :: or_nil (tags (config this))
        end
    | None => tagInAnki (settings plugin) :: or_nil (tags (config this))
    end
  else tagInAnki (settings plugin) :: or_nil (tags (config this)).

(** [hasID]: the type guard of [NoteWithID]. *)
Definition hasID (note : NoteBase) : bool :=
  match id note with
  | Some _ => true
  | None => false
  end.

End NoteModel.

Arguments path {TFolder} _.
Arguments parent {TFolder} _.
Arguments from {TFolder} _.
Arguments to {TFolder} _.
Arguments file {TFolder} _.
Arguments blueprint {Blueprint Media TFolder} _.
Arguments id {Blueprint Media TFolder} _.
Arguments fields {Blueprint Media TFolder} _.
Arguments source {Blueprint Media TFolder} _.
Arguments sourceText {Blueprint Media TFolder} _.
Arguments config {Blueprint Media TFolder} _.
Arguments medias {Blueprint Media TFolder} _.
Arguments isCloze {Blueprint Media TFolder} _.
Arguments settings {TFolder CachedMetadata DefaultDeckMap} _.
Arguments getFileCache {TFolder CachedMetadata DefaultDeckMap} _ _.
Arguments NoteBase_new {Blueprint Media TFolder} _ _ _ _ _ _ _ _.
Arguments renderAsText {Blueprint Media TFolder} _ _.
Arguments fieldsToAnkiFields {Blueprint Media TFolder} _ _.
Arguments normaliseNoteInfoFields {Blueprint Media TFolder} _ _.
Arguments getEnabled {Blueprint Media TFolder} _.
Arguments shouldUpdateFile {Blueprint Media TFolder} _ _.
Arguments getModelName {Blueprint Media TFolder} _.
Arguments getDeckName {Blueprint Media TFolder CachedMetadata DefaultDeckMap} _ _ _.
Arguments getTags {Blueprint Media TFolder CachedMetadata DefaultDeckMap} _ _ _.
Arguments hasID {Blueprint Media TFolder} _.

(** ** Parsing and validating the per-note configuration *)

(** Loosely typed values, as [js-yaml] produces them and [yup] validates
    them.  Note identifiers are integers, so numbers are modelled by [Z]. *)
#[warnings="-register-all"]
Inductive JSValue :=
| JSUndefined
| JSNull
| JSBoolean (b : bool)
| JSNumber (n : Z)
| JSString (s : string)
| JSArray (items : list JSValue)
| JSObject (props : gmap string JSValue).

Definition is_undefined (v : JSValue) : bool :=
  match v with JSUndefined => true | _ => false end.

Definition is_null (v : JSValue) : bool :=
  match v with JSNull => true | _ => false end.

(** Truthiness, as [||] tests it. *)
Definition JS_truthy (v : JSValue) : bool :=
  match v with
  | JSUndefined | JSNull => false
  | JSBoolean b => b
  | JSNumber n => negb (n =? 0)%Z
  | JSString s => truthy_string s
  | JSArray _ | JSObject _ => true
  end.

(** [obj[key]]: reading an absent key gives [undefined]. *)
Definition get_prop (props : gmap string JSValue) (key : string) : JSValue :=
  default JSUndefined (props !! key).

(** *** The schema language ([yup])

    A schema is its base type, the schema of its elements (arrays), the
    transforms added after the base type's own coercion, and its flags.
    The builders below are named after the methods the source chains. *)
Inductive SchemaType := TNumber | TString | TBoolean | TArray | TObject.

Inductive Transform := EmptyAsUndefined | NullAsUndefined.

#[warnings="-register-all"]
Inductive Schema :=
  mkSchema (type : SchemaType) (innerType : option Schema)
    (transforms : list Transform) (isNullable isDefined : bool) (dflt : JSValue).

Definition schema_type (s : Schema) : SchemaType :=
  match s with mkSchema t _ _ _ _ _ => t end.
Definition schema_nullable (s : Schema) : bool :=
  match s with mkSchema _ _ _ n _ _ => n end.

Definition yup_number : Schema := mkSchema TNumber None [] false false JSUndefined.
Definition yup_string : Schema := mkSchema TString None [] false false JSUndefined.
Definition yup_boolean : Schema := mkSchema TBoolean None [] false false JSUndefined.
Definition yup_array : Schema := mkSchema TArray None [] false false JSUndefined.

Definition of_ (inner : Schema) (s : Schema) : Schema :=
  match s with mkSchema t _ ts n d v => mkSchema t (Some inner) ts n d v end.
Definition nullable (s : Schema) : Schema :=
  match s with mkSchema t i ts _ d v => mkSchema t i ts true d v end.
Definition defined (s : Schema) : Schema :=
  match s with mkSchema t i ts n _ v => mkSchema t i ts n true v end.
Definition default_to (v : JSValue) (s : Schema) : Schema :=
  match s with mkSchema t i ts n d _ => mkSchema t i ts n d v end.
Definition notRequired (s : Schema) : Schema := s.
Definition transform (f : Transform) (s : Schema) : Schema :=
  match s with mkSchema t i ts n d v => mkSchema t i (ts ++ [f])%list n d v end.

(** Modelled from the spec: the schema methods [emptyAsUndefined] and
    [nullAsUndefined] of [utils/yup], which is not part of the sources at
    hand.  The spec says of [deck] that the empty string is treated as unset
    (undefined), and of the flags that [null] is treated as unset. *)
Definition emptyAsUndefined : Schema → Schema := transform EmptyAsUndefined.
Definition nullAsUndefined : Schema → Schema := transform NullAsUndefined.

Definition run_transform (f : Transform) (v : JSValue) : JSValue :=
  match f, v with
  | EmptyAsUndefined, JSString s => if truthy_string s then v else JSUndefined
  | NullAsUndefined, JSNull => JSUndefined
  | _, _ => v
  end.

(** Method chaining: [s ▷ m] is [s.m()]. *)
Notation "s ▷ m" := (m s) (at level 45, left associativity, only parsing).

Definition ParseConfigSchema : list (string * Schema) :=
  [ ("id", yup_number ▷ nullable ▷ defined ▷ default_to JSNull);
    ("deck", yup_string ▷ emptyAsUndefined ▷ nullAsUndefined);
    ("tags", yup_array ▷ of_ yup_string ▷ notRequired);
    ("delete", yup_boolean ▷ nullAsUndefined);
    ("enabled", yup_boolean ▷ nullAsUndefined);
    ("cloze", yup_boolean ▷ nullAsUndefined) ].

Definition ParseLocationMarkerSchema : list (string * Schema) :=
  [ ("offset", yup_number ▷ defined);
    ("line", yup_number ▷ defined);
    ("column", yup_number ▷ defined) ].

Definition ParseLineResultSchema : list (string * Schema) :=
  [ ("type", yup_string ▷ defined);
    ("text", yup_string ▷ defined) ].

Definition typeCheck (t : SchemaType) (v : JSValue) : bool :=
  match t, v with
  | TNumber, JSNumber _ => true
  | TString, JSString _ => true
  | TBoolean, JSBoolean _ => true
  | TArray, JSArray _ => true
  | TObject, JSObject _ => true
  | _, _ => false
  end.

Definition isType (s : Schema) (v : JSValue) : bool :=
  (schema_nullable s && is_null v) || typeCheck (schema_type s) v.

Record ParseLocationMarker := {
  offset : Z;
  line : Z;
  column : Z;
}.

Record ParseLocation := {
  start : ParseLocationMarker;
  end_ : ParseLocationMarker;
  location_source : option string;
}.

Record ParseNoteResult := {
  result_type : string;
  result_config : option string;
  result_front : option string;
  result_back : option string;
  result_location : ParseLocation;
}.

(** The validated object read at the type [ParseConfig]: [Config] extended
    with [id]; a key that is absent reads as [undefined]. *)
Record ParseConfig := {
  ParseConfig_id : option Z;
  ParseConfig_config :> Config;
}.

Definition as_string (v : JSValue) : option string :=
  match v with JSString s => Some s | _ => None end.
Definition as_boolean (v : JSValue) : option bool :=
  match v with JSBoolean b => Some b | _ => None end.
Definition as_number (v : JSValue) : option Z :=
  match v with JSNumber n => Some n | _ => None end.
Definition as_strings (v : JSValue) : option (list string) :=
  match v with
  | JSArray items => Some (omap as_string items)
  | _ => None
  end.

Definition as_ParseConfig (v : JSValue) : ParseConfig :=
  let props := match v with JSObject props => props | _ => ∅ end in
  {| ParseConfig_id := as_number (get_prop props "id");
     ParseConfig_config :=
       {| deck := as_string (get_prop props "deck");
          tags := as_strings (get_prop props "tags");
          delete := as_boolean (get_prop props "delete");
          enabled := as_boolean (get_prop props "enabled");
          cloze := as_boolean (get_prop props "cloze") |} |}.

Section Parsing.

(** [load] of [js-yaml], and the coercion that the base type of a [yup]
    schema applies to a value that is not of that type. *)
Variable load : string → JSResult JSValue.
Variable coerce : SchemaType → JSValue → JSValue.

Definition base_transform (s : Schema) (v : JSValue) : JSValue :=
  if isType s v then v else coerce (schema_type s) v.

(** [schema._cast(v)]: [undefined] skips the transforms; an [undefined]
    outcome is replaced by the default; the elements of an array are cast
    by the element schema. *)
Fixpoint cast (s : Schema) (v : JSValue) {struct s} : JSValue :=
  match s with
  | mkSchema _ inner ts _ _ dflt =>
      let v1 :=
        if is_undefined v then v
        else fold_left (fun acc f => run_transform f acc) ts (base_transform s v) in
      let v2 := if is_undefined v1 then dflt else v1 in
      match v2, inner with
      | JSArray items, Some el => JSArray (map (cast el) items)
      | _, _ => v2
      end
  end.

(** The tests run on a cast value: the type test (skipped on [undefined]),
    [defined()], and the same on the elements of an array. *)
Fixpoint check (s : Schema) (v : JSValue) {struct s} : bool :=
  match s with
  | mkSchema _ inner _ _ isDefined _ =>
      (is_undefined v || isType s v)
      && negb (isDefined && is_undefined v)
      && match v, inner with
         | JSArray items, Some el => forallb (check el) items
         | _, _ => true
         end
  end.

(** Casting an object keeps the keys it does not know and leaves out a
    known key whose cast value is [undefined]. *)
Definition cast_object (fields : list (string * Schema))
    (props : gmap string JSValue) : gmap string JSValue :=
  fold_left
    (fun acc kv =>
       let fieldValue := cast kv.2 (get_prop props kv.1) in
       if is_undefined fieldValue then base.delete kv.1 acc
       else <[kv.1 := fieldValue]> acc)
    fields props.

(** [objectSchema.validate(v)]. *)
Definition validate (fields : list (string * Schema)) (v : JSValue)
    : JSResult JSValue :=
  let v1 := if typeCheck TObject v then v else coerce TObject v in
  match v1 with
  | JSObject props =>
      let casted := cast_object fields props in
      if forallb (fun kv => check kv.2 (get_prop casted kv.1)) fields
      then Return (JSObject casted)
      else Throw ValidationError
  | _ => Throw ValidationError
  end.

Definition ParseConfig_fromResult (result : ParseNoteResult) : JSResult JSValue :=
  let configStr := or_empty (result_config result) in
  loaded ← load configStr;
  let configObj :=
    if JS_truthy loaded then loaded else JSObject {[ "id" := JSNull ]} in
  validatedConfig ← validate ParseConfigSchema configObj;
  mret validatedConfig.

End Parsing.

(** ** Definitions used to state the properties *)

(** The expected remote field names of a model. *)
Definition frontlike_name (isCloze : bool) : string := if isCloze then "Text" else "Front".
Definition backlike_name (isCloze : bool) : string := if isCloze then "Back Extra" else "Back".

(** The remote record's mapping from field name to field text. *)
Definition field_values (noteInfo : NotesInfoResponseEntity) : AnkiFields :=
  value <$> noteInfo_fields noteInfo.

(** Whether the remote record declares the cloze model. *)
Definition declares_cloze (noteInfo : NotesInfoResponseEntity) : bool :=
  String.eqb (modelName noteInfo) "Cloze".

(** An optional string counts as unset when it is absent or empty. *)
Definition unset (s : option string) : Prop := s = None ∨ s = Some "".

(** The round trip: the remote record through the two-slot model and back. *)
Definition round_trip {Blueprint Media TFolder} (this : NoteBase Blueprint Media TFolder)
    (noteInfo : NotesInfoResponseEntity) : JSResult AnkiFields :=
  fs ← normaliseNoteInfoFields this noteInfo; mret (fieldsToAnkiFields this fs).

(** The note with another configuration. *)
Definition with_config {Blueprint Media TFolder} (this : NoteBase Blueprint Media TFolder)
    (c : Config) : NoteBase Blueprint Media TFolder :=
  {| blueprint := blueprint this; id := id this; fields := fields this;
     source := source this; sourceText := sourceText this;
     config := c; medias := medias this; isCloze := isCloze this |}.

(** Replacing every occurrence of one character, written without [split]
    and [join]. *)
Fixpoint replace_char (c : ascii) (r : string) (s : string) : string :=
  match s with
  | EmptyString => EmptyString
  | String d s' =>
      (if Ascii.eqb d c then r else String d EmptyString) +:+ replace_char c r s'
  end.

(** Dropping a leading character. *)
Definition strip_leading (c : ascii) (s : string) : string :=
  match s with
  | String d s' => if Ascii.eqb d c then s' else s
  | EmptyString => s
  end.

Fixpoint contains_char (c : ascii) (s : string) : bool :=
  match s with
  | EmptyString => false
  | String d s' => Ascii.eqb d c || contains_char c s'
  end.

(** A tag carries its marker in front, if it has one at all. *)
Definition marker_in_front (c : ascii) (s : string) : bool :=
  match s with
  | String d s' => Ascii.eqb d c || negb (contains_char c s)
  | EmptyString => true
  end.

(** De-duplication that keeps the first occurrence of every element, in
    order: an element is dropped when it was seen before. *)
Fixpoint dedup_seen (seen : list string) (l : list string) : list string :=
  match l with
  | [] => []
  | x :: l' =>
      if bool_decide (x ∈ seen) then dedup_seen seen l'
      else x :: dedup_seen (seen ++ [x])%list l'
  end.

Definition dedup_first_seen (l : list string) : list string := dedup_seen [] l.

(** How often a tag occurs in a tag list. *)
Definition occurrences (x : string) (l : list string) : nat :=
  length (filter (λ y, y = x) l).

Section InheritedTags.
Context {Blueprint Media TFolder CachedMetadata DefaultDeckMap : Type}.
Variable getAllTags : CachedMetadata → option (list string).

(** The document tags that [getTags] takes over, in the remote system's
    format: none unless [inheritTags] is on and the cache knows the file. *)
Definition inheritedTags (this : NoteBase Blueprint Media TFolder)
    (plugin : AnkiBridgePlugin TFolder CachedMetadata DefaultDeckMap) : list string :=
  if inheritTags (settings plugin) then
    match getFileCache plugin (file (source this)) ≫= getAllTags with
    | Some cached => map (replace_g "/" "::") (map (replace "#" "") cached)
    | None => []
    end
  else [].
End InheritedTags.

(** *** A small vault, for concrete runs

    Folders are their paths, a file's cached metadata is its tag list, a
    blueprint is the text it renders, and the default-deck mappings are
    (folder, deck) pairs looked up by exact folder. *)
Definition vault_getAllTags (cache : list string) : option (list string) := Some cache.

Definition vault_getDefaultDeckForFolder (folder : string)
    (maps : list (string * string)) : option string :=
  snd <$> find (λ m, String.eqb (fst m) folder) maps.

Definition vault_renderAsText (b : string) (_ : NoteBase string unit string) : string := b.

Definition vault_config (d : option string) (ts : option (list string))
    (en : option bool) (cl : option bool) : Config :=
  {| deck := d; tags := ts; delete := None; enabled := en; cloze := cl |}.

Definition vault_note (c : Config) (cl : bool) : NoteBase string unit string :=
  {| blueprint := "Q: cell"; id := Some 7;
     fields := {| Frontlike := Some "cell"; Backlike := None |};
     source := {| from := 0; to := 3;
                  file := {| path := "Biology/Cells.md"; parent := "Biology" |} |};
     sourceText := "Q: cell?"; config := c; medias := []; isCloze := cl |}.

Definition vault_plugin (inheritD : option bool) (inheritT : bool)
    (cache : option (list string)) : AnkiBridgePlugin string (list string) (string * string) :=
  {| settings := {| inheritDeck := inheritD;
                    defaultDeckMaps := [("Chemistry", "Chem")];
                    fallbackDeck := "MyDeck";
                    inheritTags := inheritT;
                    tagInAnki := "obsidian" |};
     getFileCache := λ _, cache |}.

Definition vault_noteInfo (model : string) (front back : string * string)
    : NotesInfoResponseEntity :=
  {| noteId := 7; modelName := model; noteInfo_tags := [];
     noteInfo_fields :=
       <[back.1 := {| value := back.2; order := 1 |}]>
         (<[front.1 := {| value := front.2; order := 0 |}]> ∅) |}.

Definition plain_config : Config := vault_config None None None None.
Definition basic_note : NoteBase string unit string := vault_note plain_config false.
Definition cloze_note : NoteBase string unit string := vault_note plain_config true.
Definition marker_listed_note : NoteBase string unit string :=
  vault_note (vault_config None (Some ["obsidian"]) None None) false.
Definition exam_note : NoteBase string unit string :=
  vault_note (vault_config None (Some ["exam"]) None None) false.
Definition cloze_record : NotesInfoResponseEntity :=
  vault_noteInfo "Cloze" ("Text", "a {{c1::cell}}") ("Back Extra", "hint").

Definition vault_load (s : string) : JSResult JSValue :=
  if String.eqb s "" then Return JSUndefined else Throw YAMLException.

Definition vault_coerce (_ : SchemaType) (v : JSValue) : JSValue := v.

Definition vault_result (c : option string) : ParseNoteResult :=
  {| result_type := "note"; result_config := c;
     result_front := Some "cell"; result_back := None;
     result_location :=
       {| start := {| offset := 0; line := 1; column := 0 |};
          end_ := {| offset := 8; line := 1; column := 8 |};
          location_source := None |} |}.

(** A loader that knows a single document. *)
Definition vault_load_one (text : string) (doc : JSValue) (s : string) : JSResult JSValue :=
  if String.eqb s text then Return doc else Throw YAMLException.

(** A configuration block that names a deck and carries a key of its own. *)
Definition deck_text : string := "deck: Biology".
Definition deck_loaded : gmap string JSValue :=
  <["note" := JSString "mine"]> {[ "deck" := JSString "Biology" ]}.
Definition deck_validated : gmap string JSValue := <["id" := JSNull]> deck_loaded.
Definition deck_load : string → JSResult JSValue :=
  vault_load_one deck_text (JSObject deck_loaded).

Definition basic_record : NotesInfoResponseEntity :=
  vault_noteInfo "Basic" ("Front", "cell") ("Back", "").

Definition start_marker : gmap string JSValue :=
  <["column" := JSNumber 0]> (<["line" := JSNumber 1]> {[ "offset" := JSNumber 0 ]}).
Definition heading_line : gmap string JSValue :=
  <["text" := JSString "Cells"]> {[ "type" := JSString "heading" ]}.

(** ** Properties *)

(** *** Strings and arrays *)

Lemma truthy_string_spec (s : string) : truthy_string s = true ↔ s ≠ "".
Proof.
  unfold truthy_string. rewrite negb_true_iff.
  destruct (String.eqb_spec s ""); split; congruence.
Qed.

Lemma truthy_Some (d : string) :
  truthy (Some d) = Some d ↔ d ≠ "".
Proof.
  unfold truthy. rewrite <- truthy_string_spec.
  destruct (truthy_string d); split; congruence.
Qed.

Lemma truthy_None (s : option string) :
  truthy s = None ↔ s = None ∨ s = Some "".
Proof.
  destruct s as [d|]; simpl; [|tauto].
  destruct (truthy_string d) eqn:E; split.
  - discriminate.
  - intros [H|H]; [discriminate|].
    injection H as ->. discriminate.
  - intros _. right. f_equal.
    destruct (String.eqb_spec d ""); [assumption|].
    apply truthy_string_spec in n. congruence.
  - reflexivity.
Qed.

Lemma or_empty_default (s : option string) : or_empty s = default "" s.
Proof.
  unfold or_empty. destruct (truthy s) as [v|] eqn:E.
  - destruct s as [d|]; simpl in *; [|discriminate].
    destruct (truthy_string d); congruence.
  - apply truthy_None in E as [-> | ->]; reflexivity.
Qed.

Lemma split_nonempty (sep : ascii) (s : string) : split sep s ≠ [].
Proof.
  destruct s as [|c s]; simpl; [discriminate|].
  destruct (Ascii.eqb c sep); [discriminate|].
  destruct (split sep s); discriminate.
Qed.

Lemma join_cons_char (sep : string) (c : ascii) (piece : string) (rest : list string) :
  join sep (String c piece :: rest) = String c (join sep (piece :: rest)).
Proof. destruct rest; reflexivity. Qed.

Lemma join_split_replace_char (c : ascii) (r : string) (s : string) :
  join r (split c s) = replace_char c r s.
Proof.
  induction s as [|d s IH]; simpl; [reflexivity|].
  destruct (Ascii.eqb d c).
  - pose proof (split_nonempty c s) as Hne.
    destruct (split c s) as [|piece rest]; [congruence|].
    simpl in *. rewrite IH. reflexivity.
  - pose proof (split_nonempty c s) as Hne.
    destruct (split c s) as [|piece rest]; [congruence|].
    rewrite join_cons_char, IH. reflexivity.
Qed.

Lemma replace_g_replace_char (c : ascii) (r : string) (s : string) :
  replace_g c r s = replace_char c r s.
Proof.
  induction s as [|d s IH]; simpl; [reflexivity|].
  rewrite IH. destruct (Ascii.eqb d c); reflexivity.
Qed.

Lemma replace_absent (c : ascii) (r : string) (s : string) :
  contains_char c s = false → replace c r s = s.
Proof.
  induction s as [|d s IH]; simpl; [reflexivity|].
  destruct (Ascii.eqb d c); simpl; [discriminate|].
  intros H. rewrite IH by assumption. reflexivity.
Qed.

Lemma replace_strip_leading (c : ascii) (s : string) :
  marker_in_front c s = true → replace c "" s = strip_leading c s.
Proof.
  destruct s as [|d s]; [reflexivity|].
  unfold marker_in_front, strip_leading.
  destruct (Ascii.eqb d c) eqn:E.
  - intros _. simpl. rewrite E. reflexivity.
  - simpl. rewrite E. simpl. rewrite negb_true_iff. intros H.
    rewrite replace_absent by assumption. reflexivity.
Qed.

Lemma indexOf_from_fresh (x : string) (pre rest : list string) (i : Z) :
  x ∉ pre →
  indexOf_from x (pre ++ x :: rest)%list i = (i + Z.of_nat (length pre))%Z.
Proof.
  revert i. induction pre as [|y pre IH]; intros i Hfresh; simpl.
  - rewrite String.eqb_refl. lia.
  - apply not_elem_of_cons in Hfresh as [Hne Hfresh].
    destruct (String.eqb_spec y x); [congruence|].
    rewrite IH by assumption. lia.
Qed.

Lemma indexOf_from_seen (x : string) (pre rest : list string) (i : Z) :
  x ∈ pre →
  (indexOf_from x (pre ++ rest)%list i < i + Z.of_nat (length pre))%Z.
Proof.
  revert i. induction pre as [|y pre IH]; intros i Hin; simpl.
  - apply elem_of_nil in Hin. contradiction.
  - destruct (String.eqb_spec y x) as [->|Hne]; [lia|].
    apply elem_of_cons in Hin as [->|Hin]; [congruence|].
    specialize (IH (i + 1)%Z Hin). lia.
Qed.

Lemma dedup_seen_ext (seen seen' l : list string) :
  (∀ x, x ∈ seen ↔ x ∈ seen') → dedup_seen seen l = dedup_seen seen' l.
Proof.
  revert seen seen'. induction l as [|x l IH]; intros seen seen' Hsame; simpl.
  - reflexivity.
  - rewrite (bool_decide_ext (x ∈ seen) (x ∈ seen')) by apply Hsame.
    destruct (bool_decide (x ∈ seen')).
    + apply IH, Hsame.
    + f_equal. apply IH. intros y. rewrite !elem_of_app, Hsame. reflexivity.
Qed.

Lemma elem_of_dedup_seen (x : string) (seen l : list string) :
  x ∈ dedup_seen seen l ↔ x ∈ l ∧ x ∉ seen.
Proof.
  revert seen. induction l as [|y l IH]; intros seen; simpl.
  - rewrite elem_of_nil. tauto.
  - destruct (bool_decide_reflect (y ∈ seen)) as [Hseen|Hfresh].
    + rewrite IH, elem_of_cons. split; [tauto|].
      intros [[->|Hin] Hx]; [contradiction|tauto].
    + rewrite elem_of_cons, IH, elem_of_cons, elem_of_app, list_elem_of_singleton.
      destruct (decide (x = y)) as [->|Hne]; tauto.
Qed.

(** The source's [filter]/[indexOf] idiom keeps exactly the first
    occurrences. *)
Lemma filter_indexOf_dedup_seen (whole pre l : list string) :
  whole = (pre ++ l)%list →
  filter_from (λ item index, (indexOf whole item =? index)%Z) l (Z.of_nat (length pre))
  = dedup_seen pre l.
Proof.
  revert pre. induction l as [|x l IH]; intros pre Hwhole; simpl; [reflexivity|].
  assert (whole = ((pre ++ [x]) ++ l)%list) as Hwhole'
    by (rewrite <- app_assoc; exact Hwhole).
  specialize (IH (pre ++ [x])%list Hwhole').
  rewrite length_app, Nat2Z.inj_add in IH.
  change (Z.of_nat (length [x])) with 1%Z in IH.
  destruct (bool_decide_reflect (x ∈ pre)) as [Hseen|Hfresh].
  - pose proof (indexOf_from_seen x pre (x :: l) 0 Hseen) as Hlt.
    unfold indexOf at 1. rewrite Hwhole at 1.
    destruct (Z.eqb_spec (indexOf_from x (pre ++ x :: l)%list 0) (Z.of_nat (length pre)));
      [lia|].
    rewrite IH. apply dedup_seen_ext. intros y.
    rewrite elem_of_app, list_elem_of_singleton.
    split; [|tauto]. intros [?| ->]; assumption.
  - unfold indexOf at 1. rewrite Hwhole at 1.
    rewrite indexOf_from_fresh by assumption.
    rewrite Z.add_0_l, Z.eqb_refl. f_equal. exact IH.
Qed.

Lemma filter_indexOf_dedup_first_seen (l : list string) :
  filter_indexed (λ item index, (indexOf l item =? index)%Z) l = dedup_first_seen l.
Proof. apply (filter_indexOf_dedup_seen l [] l). reflexivity. Qed.

Lemma occurrences_cons (x y : string) (l : list string) :
  occurrences x (y :: l)
  = if decide (y = x) then S (occurrences x l) else occurrences x l.
Proof.
  unfold occurrences. rewrite filter_cons.
  destruct (decide (y = x)); reflexivity.
Qed.

Lemma occurrences_zero (x : string) (l : list string) :
  occurrences x l = 0%nat ↔ x ∉ l.
Proof.
  induction l as [|y l IH].
  - split; [intros _; apply not_elem_of_nil | reflexivity].
  - rewrite occurrences_cons, not_elem_of_cons.
    destruct (decide (y = x)) as [->|Hne].
    + split; [discriminate | tauto].
    + rewrite IH. split; [intros ?; split; [congruence | assumption] | tauto].
Qed.

(** *** The note entity *)

Section NoteProperties.
Context {Blueprint Media TFolder CachedMetadata DefaultDeckMap : Type}.
Variable Blueprint_renderAsText : Blueprint → NoteBase Blueprint Media TFolder → string.
Variable getDefaultDeckForFolder : TFolder → list DefaultDeckMap → option string.
Variable getAllTags : CachedMetadata → option (list string).

Implicit Types (this : NoteBase Blueprint Media TFolder).
Implicit Types (plugin : AnkiBridgePlugin TFolder CachedMetadata DefaultDeckMap).

Lemma getEnabled_spec this :
  getEnabled this = true ↔
  enabled (config this) = None ∨ enabled (config this) = Some true.
Proof.
  unfold getEnabled. destruct (enabled (config this)) as [[]|]; intuition congruence.
Qed.

(** C1: [shouldUpdateFile()] is true exactly when the note is enabled
    ([config.enabled] unset or true) and the rendered text differs from
    [sourceText]; hence it is false for a note with [config.enabled] false
    and for a note whose [sourceText] is its rendered text. *)
Theorem shouldUpdateFile_iff this :
  (shouldUpdateFile Blueprint_renderAsText this = true ↔
     (enabled (config this) = None ∨ enabled (config this) = Some true)
     ∧ renderAsText Blueprint_renderAsText this ≠ sourceText this)
  ∧ (enabled (config this) = Some false →
     shouldUpdateFile Blueprint_renderAsText this = false)
  ∧ (sourceText this = renderAsText Blueprint_renderAsText this →
     shouldUpdateFile Blueprint_renderAsText this = false).
Proof.
  unfold shouldUpdateFile. split; [|split].
  - rewrite andb_true_iff, negb_true_iff, getEnabled_spec.
    destruct (String.eqb_spec (renderAsText Blueprint_renderAsText this)
                (sourceText this)) as [Heq|Hne].
    + split; [intros [_ ?]; discriminate | intros [_ ?]; contradiction].
    + tauto.
  - intros Hoff. unfold getEnabled. rewrite Hoff. reflexivity.
  - intros <-. rewrite String.eqb_refl. apply andb_false_r.
Qed.

(** C10: [getModelName()] is "Cloze" exactly when [isCloze] is true and
    "Basic" otherwise; [isCloze] is what the constructor was given (false
    when left out), and replacing the configuration, [config.cloze]
    included, does not change the model name. *)
Theorem getModelName_follows_isCloze this :
  (getModelName this = "Cloze" ↔ isCloze this = true)
  ∧ (getModelName this = "Basic" ↔ isCloze this = false)
  ∧ (∀ b i f src txt c ms flag,
       getModelName (NoteBase_new b i f src txt c ms flag : NoteBase Blueprint Media TFolder)
       = if default false flag then "Cloze" else "Basic")
  ∧ (∀ c : Config, getModelName (with_config this c) = getModelName this).
Proof.
  unfold getModelName. repeat split; try reflexivity;
    destruct (isCloze this); congruence.
Qed.

(** C7: [fieldsToAnkiFields] returns exactly the two keys of the target
    model, [Text] and [Back Extra] for a cloze note and [Front] and [Back]
    otherwise, each holding its slot's text, or the empty string when the
    slot is unset. *)
Theorem fieldsToAnkiFields_two_keys this (fs : NoteFields) :
  dom (fieldsToAnkiFields this fs)
    = (if isCloze this then {[ "Text"; "Back Extra" ]} else {[ "Front"; "Back" ]} : gset string)
  ∧ fieldsToAnkiFields this fs !! frontlike_name (isCloze this)
    = Some (default "" (Frontlike fs))
  ∧ fieldsToAnkiFields this fs !! backlike_name (isCloze this)
    = Some (default "" (Backlike fs)).
Proof.
  unfold fieldsToAnkiFields, frontlike_name, backlike_name.
  rewrite !or_empty_default.
  destruct (isCloze this); (split; [|split]).
  - rewrite !dom_insert_L, dom_empty_L. set_solver.
  - rewrite lookup_insert_ne by discriminate. apply lookup_insert_eq.
  - apply lookup_insert_eq.
  - rewrite !dom_insert_L, dom_empty_L. set_solver.
  - rewrite lookup_insert_ne by discriminate. apply lookup_insert_eq.
  - apply lookup_insert_eq.
Qed.

Lemma normaliseNoteInfoFields_names this (noteInfo : NotesInfoResponseEntity) :
  normaliseNoteInfoFields this noteInfo =
    match noteInfo_fields noteInfo !! frontlike_name (declares_cloze noteInfo),
          noteInfo_fields noteInfo !! backlike_name (declares_cloze noteInfo) with
    | Some front, Some back =>
        Return {| Frontlike := Some (value front); Backlike := Some (value back) |}
    | _, _ => Throw TypeError
    end.
Proof.
  unfold normaliseNoteInfoFields, frontlike_name, backlike_name, declares_cloze.
  simpl. destruct (String.eqb (modelName noteInfo) "Cloze");
    destruct (noteInfo_fields noteInfo !! _); reflexivity.
Qed.

(** C9: when the remote record lacks one of the field names expected for
    its model ([Text] and [Back Extra] when [modelName] is "Cloze", [Front]
    and [Back] otherwise), [normaliseNoteInfoFields] throws and returns no
    [NoteFields] at all. *)
Theorem normaliseNoteInfoFields_missing_field_throws this
    (noteInfo : NotesInfoResponseEntity) :
  noteInfo_fields noteInfo !! frontlike_name (declares_cloze noteInfo) = None
  ∨ noteInfo_fields noteInfo !! backlike_name (declares_cloze noteInfo) = None →
  normaliseNoteInfoFields this noteInfo = Throw TypeError
  ∧ ∀ fs, normaliseNoteInfoFields this noteInfo ≠ Return fs.
Proof.
  intros Hmissing.
  assert (normaliseNoteInfoFields this noteInfo = Throw TypeError) as Hthrow.
  { rewrite normaliseNoteInfoFields_names.
    destruct Hmissing as [-> | ->]; [reflexivity|].
    destruct (noteInfo_fields noteInfo !! frontlike_name _); reflexivity. }
  split; [exact Hthrow|]. intros fs. rewrite Hthrow. discriminate.
Qed.

Lemma getModelName_declares_cloze this (noteInfo : NotesInfoResponseEntity) :
  modelName noteInfo = "Basic" ∨ modelName noteInfo = "Cloze" →
  getModelName this = modelName noteInfo →
  declares_cloze noteInfo = isCloze this.
Proof.
  unfold getModelName, declares_cloze.
  intros [Hm|Hm]; rewrite Hm; destruct (isCloze this); simpl;
    (reflexivity || discriminate).
Qed.

(** C2, amended: for a remote record whose model is Basic or Cloze, whose
    fields are exactly the names expected for that model, and whose model
    is the note's own model, mapping the record into the two-slot model and
    back gives the record's mapping from field name to field text. *)
Theorem round_trip_same_model this (noteInfo : NotesInfoResponseEntity) :
  modelName noteInfo = "Basic" ∨ modelName noteInfo = "Cloze" →
  dom (noteInfo_fields noteInfo)
    = ({[ frontlike_name (declares_cloze noteInfo);
          backlike_name (declares_cloze noteInfo) ]} : gset string) →
  getModelName this = modelName noteInfo →
  round_trip this noteInfo = Return (field_values noteInfo).
Proof.
  intros Hmodel Hdom Hsame.
  pose proof (getModelName_declares_cloze this noteInfo Hmodel Hsame) as Hcl.
  unfold round_trip. rewrite normaliseNoteInfoFields_names.
  rewrite Hcl in *.
  assert (is_Some (noteInfo_fields noteInfo !! frontlike_name (isCloze this)))
    as [front Hfront]
    by (apply elem_of_dom; rewrite Hdom, elem_of_union, !elem_of_singleton; auto).
  assert (is_Some (noteInfo_fields noteInfo !! backlike_name (isCloze this)))
    as [back Hback]
    by (apply elem_of_dom; rewrite Hdom, elem_of_union, !elem_of_singleton; auto).
  rewrite Hfront, Hback. simpl. unfold mret, JSResult_ret. f_equal.
  apply map_eq. intros k. unfold field_values. rewrite lookup_fmap.
  assert (k ≠ frontlike_name (isCloze this) → k ≠ backlike_name (isCloze this) →
          noteInfo_fields noteInfo !! k = None) as Hother.
  { intros Hf Hb. apply not_elem_of_dom.
    rewrite Hdom, elem_of_union, !elem_of_singleton. tauto. }
  unfold fieldsToAnkiFields, frontlike_name, backlike_name in *.
  rewrite !or_empty_default. simpl.
  destruct (isCloze this).
  - destruct (decide (k = "Back Extra")) as [->|Hb].
    { rewrite lookup_insert_eq, Hback. reflexivity. }
    rewrite lookup_insert_ne by congruence.
    destruct (decide (k = "Text")) as [->|Hf].
    { rewrite lookup_insert_eq, Hfront. reflexivity. }
    rewrite lookup_insert_ne by congruence.
    rewrite lookup_empty, Hother by assumption. reflexivity.
  - destruct (decide (k = "Back")) as [->|Hb].
    { rewrite lookup_insert_eq, Hback. reflexivity. }
    rewrite lookup_insert_ne by congruence.
    destruct (decide (k = "Front")) as [->|Hf].
    { rewrite lookup_insert_eq, Hfront. reflexivity. }
    rewrite lookup_insert_ne by congruence.
    rewrite lookup_empty, Hother by assumption. reflexivity.
Qed.

(** C3: with [inheritDeck] explicitly true, [getDeckName] is the fallback
    deck, then "::", then the file's full path with every '/' replaced by
    "::"; neither the note's configuration nor the default-deck lookup has
    any influence on it. *)
Theorem getDeckName_inherit_mirrors_path this plugin :
  inheritDeck (settings plugin) = Some true →
  getDeckName getDefaultDeckForFolder this plugin
    = fallbackDeck (settings plugin) +:+ "::"
      +:+ replace_char "/" "::" (path (file (source this)))
  ∧ ∀ (lookup : TFolder → list DefaultDeckMap → option string) (c : Config),
      getDeckName lookup (with_config this c) plugin
      = getDeckName getDefaultDeckForFolder this plugin.
Proof.
  intros Hinherit. unfold getDeckName. rewrite Hinherit. split.
  - rewrite join_split_replace_char. reflexivity.
  - reflexivity.
Qed.

(** C4: with [inheritDeck] not true: when it is explicitly false,
    [getDeckName] is [config.deck] if that is set, and otherwise the deck
    that the folder lookup finds for the note's parent folder if it finds
    one; in every remaining case it is [fallbackDeck]. *)
Theorem getDeckName_without_inherit this plugin :
  inheritDeck (settings plugin) ≠ Some true →
  let resolved :=
    getDefaultDeckForFolder (parent (file (source this)))
      (defaultDeckMaps (settings plugin)) in
  (∀ d, inheritDeck (settings plugin) = Some false →
        deck (config this) = Some d → d ≠ "" →
        getDeckName getDefaultDeckForFolder this plugin = d)
  ∧ (∀ r, inheritDeck (settings plugin) = Some false →
          unset (deck (config this)) → resolved = Some r → r ≠ "" →
          getDeckName getDefaultDeckForFolder this plugin = r)
  ∧ ((inheritDeck (settings plugin) = Some false →
      unset (deck (config this)) ∧ unset resolved) →
     getDeckName getDefaultDeckForFolder this plugin
     = fallbackDeck (settings plugin)).
Proof.
  intros Hnot resolved. unfold getDeckName. fold resolved.
  split; [|split].
  - intros d -> -> Hd. apply truthy_Some in Hd. rewrite Hd. reflexivity.
  - intros r -> Hdeck -> Hr. apply truthy_None in Hdeck. rewrite Hdeck.
    apply truthy_Some in Hr. rewrite Hr. reflexivity.
  - intros Hrest. destruct (inheritDeck (settings plugin)) as [[]|].
    + congruence.
    + destruct Hrest as [Hdeck Hres]; [reflexivity|].
      apply truthy_None in Hdeck, Hres. rewrite Hdeck, Hres. reflexivity.
    + reflexivity.
Qed.

Lemma getTags_shape this plugin :
  getTags getAllTags this plugin
  = tagInAnki (settings plugin) ::
      match (if inheritTags (settings plugin)
             then getFileCache plugin (file (source this)) ≫= getAllTags
             else None) with
      | Some _ =>
          dedup_first_seen
            (inheritedTags getAllTags this plugin ++ or_nil (tags (config this)))%list
      | None => or_nil (tags (config this))
      end.
Proof.
  unfold getTags, inheritedTags.
  destruct (inheritTags (settings plugin)); [|reflexivity].
  destruct (getFileCache plugin (file (source this))) as [cache|]; [|reflexivity].
  simpl. destruct (getAllTags cache) as [cached|]; [|reflexivity].
  rewrite filter_indexOf_dedup_first_seen. reflexivity.
Qed.

Lemma getTags_marker_once_iff this plugin :
  occurrences (tagInAnki (settings plugin)) (getTags getAllTags this plugin) = 1%nat
  ↔ (tagInAnki (settings plugin) ∉ inheritedTags getAllTags this plugin)
    ∧ (tagInAnki (settings plugin) ∉ or_nil (tags (config this))).
Proof.
  rewrite getTags_shape.
  rewrite occurrences_cons. destruct (decide _) as [_|Hne]; [|congruence].
  set (marker := tagInAnki (settings plugin)).
  set (rest := match _ with Some _ => _ | None => _ end).
  transitivity (marker ∉ rest).
  { rewrite <- occurrences_zero. split; [intros H; injection H; tauto | congruence]. }
  subst rest. unfold inheritedTags.
  destruct (inheritTags (settings plugin)).
  - destruct (getFileCache plugin (file (source this)) ≫= getAllTags) as [cached|].
    + unfold dedup_first_seen.
      rewrite elem_of_dedup_seen, elem_of_app, elem_of_nil. tauto.
    + rewrite elem_of_nil. tauto.
  - rewrite elem_of_nil. tauto.
Qed.

(** C5, amended: the list returned by [getTags] always has [tagInAnki] as
    its first element, and it contains [tagInAnki] exactly once whenever
    [tagInAnki] is neither among [config.tags] nor among the document tags
    taken over from the cache (in their converted form). *)
Theorem getTags_marker_first this plugin :
  head (getTags getAllTags this plugin) = Some (tagInAnki (settings plugin))
  ∧ (tagInAnki (settings plugin) ∉ or_nil (tags (config this)) →
     tagInAnki (settings plugin) ∉ inheritedTags getAllTags this plugin →
     occurrences (tagInAnki (settings plugin)) (getTags getAllTags this plugin) = 1%nat).
Proof.
  split.
  - rewrite getTags_shape. reflexivity.
  - intros Hconfig Hinherited. apply getTags_marker_once_iff. tauto.
Qed.

(** C6: when [inheritTags] is true and the cache has tags for the note's
    file, each of them with its '#' in front, [getTags] is [tagInAnki]
    followed by the cached tags without their leading '#' and with every '/'
    turned into "::", then [config.tags], with later duplicates dropped. *)
Theorem getTags_inherits_document_tags this plugin cache (cached : list string) :
  inheritTags (settings plugin) = true →
  getFileCache plugin (file (source this)) = Some cache →
  getAllTags cache = Some cached →
  Forall (λ tag, marker_in_front "#" tag = true) cached →
  getTags getAllTags this plugin
  = tagInAnki (settings plugin) ::
      dedup_first_seen
        (map (λ tag, replace_char "/" "::" (strip_leading "#" tag)) cached
         ++ or_nil (tags (config this)))%list.
Proof.
  intros Hinherit Hcache Htags Hfront.
  rewrite getTags_shape. unfold inheritedTags.
  rewrite Hinherit, Hcache. simpl. rewrite Htags.
  do 3 f_equal. rewrite map_map. apply map_ext_in. intros tag Hin.
  rewrite replace_g_replace_char. f_equal.
  apply replace_strip_leading.
  rewrite Forall_forall in Hfront. apply Hfront, list_elem_of_In, Hin.
Qed.

End NoteProperties.

(** *** Configuration parsing *)

Section ParsingProperties.
Variable load : string → JSResult JSValue.
Variable coerce : SchemaType → JSValue → JSValue.

(** The object that stands for an empty configuration block validates to
    itself, whatever the coercions of foreign values are. *)
Lemma validate_default_object :
  validate coerce ParseConfigSchema (JSObject {[ "id" := JSNull ]})
  = Return (JSObject {[ "id" := JSNull ]}).
Proof. vm_compute. reflexivity. Qed.

(** C8: given that [load] returns a falsy value ([undefined]) for the empty
    document, parsing a result whose [config] is null or the empty string
    succeeds with the object [{id: null}]: read as a [ParseConfig], [id] is
    null and [deck], [tags], [delete], [enabled] and [cloze] are all
    undefined. *)
Theorem ParseConfig_fromResult_empty (result : ParseNoteResult) (loaded : JSValue) :
  load "" = Return loaded →
  JS_truthy loaded = false →
  result_config result = None ∨ result_config result = Some "" →
  ∃ validated,
    ParseConfig_fromResult load coerce result = Return validated
    ∧ validated = JSObject {[ "id" := JSNull ]}
    ∧ as_ParseConfig validated
      = {| ParseConfig_id := None;
           ParseConfig_config :=
             {| deck := None; tags := None; delete := None;
                enabled := None; cloze := None |} |}.
Proof.
  intros Hload Hfalsy Hempty. exists (JSObject {[ "id" := JSNull ]}).
  split; [|split; reflexivity].
  unfold ParseConfig_fromResult.
  assert (or_empty (result_config result) = "") as ->
    by (destruct Hempty as [-> | ->]; reflexivity).
  rewrite Hload. simpl. rewrite Hfalsy, validate_default_object. reflexivity.
Qed.

End ParsingProperties.

(** *** Concrete runs in the small vault *)

(** C2 at a cloze note and a cloze record. *)
Lemma round_trip_same_model_witness :
  round_trip cloze_note cloze_record = Return (field_values cloze_record).
Proof.
  apply (round_trip_same_model cloze_note cloze_record).
  - right. reflexivity.
  - vm_compute. reflexivity.
  - reflexivity.
Defined.

(** C2 as stated fails when the note's own model is not the record's: a
    Basic note sends a well-formed Cloze record back under the names
    [Front] and [Back]. *)
Lemma round_trip_other_model_differs :
  (modelName cloze_record = "Basic" ∨ modelName cloze_record = "Cloze")
  ∧ dom (noteInfo_fields cloze_record) = ({[ "Text"; "Back Extra" ]} : gset string)
  ∧ round_trip basic_note cloze_record ≠ Return (field_values cloze_record)
  ∧ round_trip basic_note cloze_record
    = Return (<["Back" := "hint"]> (<["Front" := "a {{c1::cell}}"]> ∅)).
Proof.
  split; [right; reflexivity|].
  split; [vm_compute; reflexivity|].
  split; [|reflexivity].
  intros Heq.
  assert (∀ m1 m2 : AnkiFields,
             Return m1 = Return m2 → m1 !! "Text" = m2 !! "Text") as Hlookup
    by (intros m1 m2 [= ->]; reflexivity).
  apply Hlookup in Heq. vm_compute in Heq. discriminate.
Qed.

(** C3 at the path "Biology/Cells.md" under the fallback deck "MyDeck". *)
Lemma getDeckName_inherit_mirrors_path_witness :
  getDeckName vault_getDefaultDeckForFolder
    (vault_note (vault_config (Some "Own") None None None) false)
    (vault_plugin (Some true) false None)
  = "MyDeck::Biology::Cells.md".
Proof.
  apply (getDeckName_inherit_mirrors_path vault_getDefaultDeckForFolder
           (vault_note (vault_config (Some "Own") None None None) false)
           (vault_plugin (Some true) false None)).
  reflexivity.
Defined.

(** C4 with [inheritDeck] false, no deck of the note's own and no mapping
    for its folder. *)
Lemma getDeckName_without_inherit_witness :
  getDeckName vault_getDefaultDeckForFolder
    basic_note
    (vault_plugin (Some false) false None)
  = "MyDeck".
Proof.
  apply (getDeckName_without_inherit vault_getDefaultDeckForFolder
           basic_note
           (vault_plugin (Some false) false None)).
  - discriminate.
  - intros _. split; left; reflexivity.
Defined.

(** C5 as stated fails: a marker tag that is also listed in [config.tags],
    or that also tags the document, is returned twice. *)
Lemma getTags_marker_twice :
  getTags vault_getAllTags marker_listed_note (vault_plugin None false None)
  = ["obsidian"; "obsidian"]
  ∧ occurrences "obsidian"
      (getTags vault_getAllTags marker_listed_note (vault_plugin None false None))
    ≠ 1%nat
  ∧ getTags vault_getAllTags basic_note
      (vault_plugin None true (Some ["#exam"; "#obsidian"]))
    = ["obsidian"; "exam"; "obsidian"]
  ∧ occurrences "obsidian"
      (getTags vault_getAllTags basic_note
         (vault_plugin None true (Some ["#exam"; "#obsidian"])))
    ≠ 1%nat.
Proof.
  repeat split; try reflexivity; vm_compute; discriminate.
Qed.

(** C5 at a note that lists "exam" in a document tagged "#Bio/Cells". *)
Lemma getTags_marker_first_witness :
  head (getTags vault_getAllTags exam_note
          (vault_plugin None true (Some ["#Bio/Cells"; "#exam"])))
  = Some "obsidian"
  ∧ occurrences "obsidian"
      (getTags vault_getAllTags exam_note
         (vault_plugin None true (Some ["#Bio/Cells"; "#exam"])))
    = 1%nat.
Proof.
  pose proof (getTags_marker_first vault_getAllTags exam_note
                (vault_plugin None true (Some ["#Bio/Cells"; "#exam"])))
    as [Hfirst Honce].
  split; [exact Hfirst|].
  apply Honce.
  - intros Hin. vm_compute in Hin.
    apply list_elem_of_singleton in Hin. discriminate.
  - intros Hin. vm_compute in Hin.
    apply elem_of_cons in Hin as [Hin|Hin]; [discriminate|].
    apply list_elem_of_singleton in Hin. discriminate.
Defined.

(** C6 at the cached tags "#Bio/Cells" and "#exam" with "exam" listed in
    [config.tags]. *)
Lemma getTags_inherits_document_tags_witness :
  getTags vault_getAllTags
    exam_note (vault_plugin None true (Some ["#Bio/Cells"; "#exam"]))
  = ["obsidian"; "Bio::Cells"; "exam"].
Proof.
  apply (getTags_inherits_document_tags vault_getAllTags exam_note
           (vault_plugin None true (Some ["#Bio/Cells"; "#exam"]))
           ["#Bio/Cells"; "#exam"] ["#Bio/Cells"; "#exam"]).
  - reflexivity.
  - reflexivity.
  - reflexivity.
  - repeat constructor.
Defined.

(** C8 at a block without configuration text. *)
Lemma ParseConfig_fromResult_empty_witness :
  ∃ validated,
    ParseConfig_fromResult vault_load vault_coerce (vault_result None) = Return validated
    ∧ validated = JSObject {[ "id" := JSNull ]}
    ∧ as_ParseConfig validated
      = {| ParseConfig_id := None;
           ParseConfig_config :=
             {| deck := None; tags := None; delete := None;
                enabled := None; cloze := None |} |}.
Proof.
  apply (ParseConfig_fromResult_empty vault_load vault_coerce (vault_result None)
           JSUndefined).
  - reflexivity.
  - reflexivity.
  - left. reflexivity.
Defined.

(** C9 at a Basic record that has no [Back] field. *)
Lemma normaliseNoteInfoFields_missing_field_throws_witness :
  normaliseNoteInfoFields basic_note
    (vault_noteInfo "Basic" ("Front", "cell") ("Extra", "hint"))
  = Throw TypeError.
Proof.
  apply (normaliseNoteInfoFields_missing_field_throws
           basic_note
           (vault_noteInfo "Basic" ("Front", "cell") ("Extra", "hint"))).
  right. vm_compute. reflexivity.
Defined.

(** ** Further properties of the note entity *)

Lemma contains_char_append (c : ascii) (s t : string) :
  contains_char c (s +:+ t) = contains_char c s || contains_char c t.
Proof.
  induction s as [|d s IH]; simpl; [reflexivity|].
  rewrite IH. apply orb_assoc.
Qed.

Lemma replace_char_clears (c : ascii) (r : string) (s : string) :
  contains_char c r = false → contains_char c (replace_char c r s) = false.
Proof.
  intros Hr. induction s as [|d s IH]; simpl; [reflexivity|].
  rewrite contains_char_append, IH, orb_false_r.
  destruct (Ascii.eqb d c) eqn:E; [assumption|]. simpl. rewrite E. reflexivity.
Qed.

Lemma replace_char_absent (c : ascii) (r : string) (s : string) :
  contains_char c s = false → replace_char c r s = s.
Proof.
  induction s as [|d s IH]; simpl; [reflexivity|].
  destruct (Ascii.eqb d c); simpl; [discriminate|].
  intros H. rewrite IH by assumption. reflexivity.
Qed.

Lemma append_nonempty (s t : string) : s ≠ "" → s +:+ t ≠ "".
Proof. destruct s; [congruence | discriminate]. Qed.

Lemma NoDup_dedup_seen (seen l : list string) : NoDup (dedup_seen seen l).
Proof.
  revert seen. induction l as [|x l IH]; intros seen; simpl; [constructor|].
  destruct (bool_decide (x ∈ seen)); [apply IH|].
  apply NoDup_cons. split; [|apply IH].
  rewrite elem_of_dedup_seen, elem_of_app, list_elem_of_singleton. tauto.
Qed.

Lemma sublist_dedup_seen (seen l : list string) : sublist (dedup_seen seen l) l.
Proof.
  revert seen. induction l as [|x l IH]; intros seen; simpl; [constructor|].
  destruct (bool_decide (x ∈ seen)); [apply sublist_cons | apply sublist_skip]; apply IH.
Qed.

Section NoteFurtherProperties.
Context {Blueprint Media TFolder CachedMetadata DefaultDeckMap : Type}.
Variable getDefaultDeckForFolder : TFolder → list DefaultDeckMap → option string.
Variable getAllTags : CachedMetadata → option (list string).

Implicit Types (this that : NoteBase Blueprint Media TFolder).
Implicit Types (plugin : AnkiBridgePlugin TFolder CachedMetadata DefaultDeckMap).

(** X1: a tag is in the list returned by [getTags] exactly when it is the
    marker tag, one of the document tags taken over, or one of
    [config.tags]: no configured tag is lost and no other tag appears. *)
Theorem getTags_elements this plugin (tag : string) :
  tag ∈ getTags getAllTags this plugin
  ↔ tag = tagInAnki (settings plugin)
    ∨ tag ∈ inheritedTags getAllTags this plugin
    ∨ tag ∈ or_nil (tags (config this)).
Proof.
  rewrite getTags_shape, elem_of_cons. unfold inheritedTags.
  destruct (inheritTags (settings plugin)).
  - destruct (getFileCache plugin (file (source this)) ≫= getAllTags) as [cached|].
    + unfold dedup_first_seen.
      rewrite elem_of_dedup_seen, elem_of_app, elem_of_nil. tauto.
    + rewrite elem_of_nil. tauto.
  - rewrite elem_of_nil. tauto.
Qed.

(** X2: when the document tags are taken over, what follows the marker tag
    has no duplicates and is a subsequence of the converted document tags
    followed by [config.tags]. *)
Theorem getTags_inherited_tail_NoDup this plugin cache (cached : list string) :
  inheritTags (settings plugin) = true →
  getFileCache plugin (file (source this)) = Some cache →
  getAllTags cache = Some cached →
  ∃ rest,
    getTags getAllTags this plugin = tagInAnki (settings plugin) :: rest
    ∧ NoDup rest
    ∧ sublist rest
        (inheritedTags getAllTags this plugin ++ or_nil (tags (config this)))%list.
Proof.
  intros Hinherit Hcache Htags.
  rewrite getTags_shape, Hinherit, Hcache. simpl. rewrite Htags.
  eexists. split; [reflexivity|]. unfold dedup_first_seen.
  split; [apply NoDup_dedup_seen | apply sublist_dedup_seen].
Qed.

(** X3: with [inheritTags] off, or without cached tags for the note's file,
    [getTags] is the marker tag followed by [config.tags] as they are, in
    their order and with their duplicates. *)
Theorem getTags_without_document_tags this plugin :
  inheritTags (settings plugin) = false
  ∨ getFileCache plugin (file (source this)) ≫= getAllTags = None →
  getTags getAllTags this plugin
  = tagInAnki (settings plugin) :: or_nil (tags (config this)).
Proof.
  intros Hno. rewrite getTags_shape.
  destruct Hno as [-> | Hnone]; [reflexivity|].
  rewrite Hnone. destruct (inheritTags (settings plugin)); reflexivity.
Qed.

(** X4: a tag returned by [getTags] that is neither the marker tag nor one
    of [config.tags] contains no '/'. *)
Theorem getTags_document_tags_without_slash this plugin (tag : string) :
  tag ∈ getTags getAllTags this plugin →
  tag = tagInAnki (settings plugin)
  ∨ tag ∈ or_nil (tags (config this))
  ∨ contains_char "/" tag = false.
Proof.
  rewrite getTags_shape, elem_of_cons. intros [Hmarker | Hrest]; [tauto|].
  right. unfold inheritedTags in Hrest.
  destruct (inheritTags (settings plugin)); [|tauto].
  destruct (getFileCache plugin (file (source this)) ≫= getAllTags) as [cached|];
    [|tauto].
  unfold dedup_first_seen in Hrest.
  apply elem_of_dedup_seen in Hrest as [Hrest _].
  apply elem_of_app in Hrest as [Hdoc | Hconfig]; [|tauto].
  right. apply list_elem_of_In, in_map_iff in Hdoc as [raw [<- _]].
  rewrite replace_g_replace_char. apply replace_char_clears. reflexivity.
Qed.

(** X5: the deck name is never empty when the fallback deck is not. *)
Theorem getDeckName_nonempty this plugin :
  fallbackDeck (settings plugin) ≠ "" →
  getDeckName getDefaultDeckForFolder this plugin ≠ "".
Proof.
  intros Hfallback. unfold getDeckName.
  destruct (inheritDeck (settings plugin)) as [[]|]; [| |assumption].
  - apply append_nonempty, Hfallback.
  - destruct (truthy (deck (config this))) as [d|] eqn:Hdeck.
    { destruct (deck (config this)) as [d'|]; simpl in Hdeck; [|discriminate].
      destruct (truthy_string d') eqn:Ht; [|discriminate].
      injection Hdeck as <-. apply truthy_string_spec, Ht. }
    destruct (truthy (getDefaultDeckForFolder _ _)) as [r|] eqn:Hres; [|assumption].
    destruct (getDefaultDeckForFolder _ _) as [r'|]; simpl in Hres; [|discriminate].
    destruct (truthy_string r') eqn:Ht; [|discriminate].
    injection Hres as <-. apply truthy_string_spec, Ht.
Qed.

(** X6: with [inheritDeck] true, the deck name is the fallback deck and
    "::" followed by a part without any '/'; for a file at the root of the
    vault (no '/' in its path) that part is the path itself. *)
Theorem getDeckName_mirror_shape this plugin :
  inheritDeck (settings plugin) = Some true →
  ∃ rest,
    getDeckName getDefaultDeckForFolder this plugin
    = fallbackDeck (settings plugin) +:+ "::" +:+ rest
    ∧ contains_char "/" rest = false
    ∧ (contains_char "/" (path (file (source this))) = false →
       rest = path (file (source this))).
Proof.
  intros Hinherit. unfold getDeckName. rewrite Hinherit.
  exists (join "::" (split "/" (path (file (source this))))).
  rewrite join_split_replace_char.
  split; [reflexivity|]. split.
  - apply replace_char_clears. reflexivity.
  - apply replace_char_absent.
Qed.

Lemma fieldsToAnkiFields_lookup this (fs : NoteFields) :
  fieldsToAnkiFields this fs !! frontlike_name (isCloze this)
    = Some (or_empty (Frontlike fs))
  ∧ fieldsToAnkiFields this fs !! backlike_name (isCloze this)
    = Some (or_empty (Backlike fs)).
Proof.
  unfold fieldsToAnkiFields, frontlike_name, backlike_name.
  destruct (isCloze this); split;
    (apply lookup_insert_eq
     || (rewrite lookup_insert_ne by discriminate; apply lookup_insert_eq)).
Qed.

Lemma getModelName_is_declared this (noteInfo : NotesInfoResponseEntity) :
  modelName noteInfo = getModelName this → declares_cloze noteInfo = isCloze this.
Proof.
  unfold getModelName, declares_cloze. intros ->.
  destruct (isCloze this); reflexivity.
Qed.

(** X7: the way out and back.  When the remote record has the note's model
    and holds what [fieldsToAnkiFields] produced for some fields,
    [normaliseNoteInfoFields] returns those fields again, with a null or
    unset slot read back as the empty string. *)
Theorem normalise_after_fieldsToAnkiFields this (fs : NoteFields)
    (noteInfo : NotesInfoResponseEntity) :
  modelName noteInfo = getModelName this →
  field_values noteInfo = fieldsToAnkiFields this fs →
  normaliseNoteInfoFields this noteInfo
  = Return {| Frontlike := Some (or_empty (Frontlike fs));
              Backlike := Some (or_empty (Backlike fs)) |}.
Proof.
  intros Hmodel Hvalues.
  rewrite normaliseNoteInfoFields_names, (getModelName_is_declared _ _ Hmodel).
  destruct (fieldsToAnkiFields_lookup this fs) as [Hfront Hback].
  rewrite <- Hvalues in Hfront, Hback. unfold field_values in Hfront, Hback.
  rewrite lookup_fmap in Hfront, Hback.
  destruct (noteInfo_fields noteInfo !! frontlike_name (isCloze this)) as [front|];
    [|discriminate].
  destruct (noteInfo_fields noteInfo !! backlike_name (isCloze this)) as [back|];
    [|discriminate].
  simpl in Hfront, Hback. congruence.
Qed.

(** X8: two field records are sent to the remote store as the same mapping
    exactly when their slots hold the same text, a null or unset slot
    counting as the empty string. *)
Theorem fieldsToAnkiFields_same_iff this (fs1 fs2 : NoteFields) :
  fieldsToAnkiFields this fs1 = fieldsToAnkiFields this fs2
  ↔ or_empty (Frontlike fs1) = or_empty (Frontlike fs2)
    ∧ or_empty (Backlike fs1) = or_empty (Backlike fs2).
Proof.
  split.
  - intros Heq.
    destruct (fieldsToAnkiFields_lookup this fs1) as [Hf1 Hb1].
    destruct (fieldsToAnkiFields_lookup this fs2) as [Hf2 Hb2].
    rewrite Heq in Hf1, Hb1. split; congruence.
  - intros [Hf Hb]. unfold fieldsToAnkiFields. rewrite Hf, Hb. reflexivity.
Qed.

(** X9: [normaliseNoteInfoFields] returns fields exactly when the record
    carries both names that its own [modelName] calls for, and then the
    slots hold the values of those two entries; the note it is called on,
    the other entries and the entries' order numbers play no part. *)
Theorem normaliseNoteInfoFields_returns_iff this (noteInfo : NotesInfoResponseEntity)
    (fs : NoteFields) :
  normaliseNoteInfoFields this noteInfo = Return fs
  ↔ ∃ front back,
      noteInfo_fields noteInfo !! frontlike_name (declares_cloze noteInfo) = Some front
      ∧ noteInfo_fields noteInfo !! backlike_name (declares_cloze noteInfo) = Some back
      ∧ fs = {| Frontlike := Some (value front); Backlike := Some (value back) |}.
Proof.
  rewrite normaliseNoteInfoFields_names. split.
  - destruct (noteInfo_fields noteInfo !! frontlike_name _) as [front|]; [|discriminate].
    destruct (noteInfo_fields noteInfo !! backlike_name _) as [back|]; [|discriminate].
    intros [= <-]. exists front, back. auto.
  - intros (front & back & -> & -> & ->). reflexivity.
Qed.

(** X10: whatever the models of the record and of the note, the texts
    survive: sending the normalised fields out again puts the record's
    front-like text under the note's front-like name and its back-like text
    under the note's back-like name. *)
Theorem fieldsToAnkiFields_after_normalise this that
    (noteInfo : NotesInfoResponseEntity) (fs : NoteFields) :
  normaliseNoteInfoFields this noteInfo = Return fs →
  fieldsToAnkiFields that fs !! frontlike_name (isCloze that)
    = value <$> noteInfo_fields noteInfo !! frontlike_name (declares_cloze noteInfo)
  ∧ fieldsToAnkiFields that fs !! backlike_name (isCloze that)
    = value <$> noteInfo_fields noteInfo !! backlike_name (declares_cloze noteInfo).
Proof.
  rewrite normaliseNoteInfoFields_names.
  destruct (noteInfo_fields noteInfo !! frontlike_name _) as [front|]; [|discriminate].
  destruct (noteInfo_fields noteInfo !! backlike_name _) as [back|]; [|discriminate].
  intros [= <-].
  destruct (fieldsToAnkiFields_lookup that
              {| Frontlike := Some (value front); Backlike := Some (value back) |})
    as [-> ->].
  rewrite !or_empty_default. split; reflexivity.
Qed.

End NoteFurtherProperties.

(** ** Further properties of configuration parsing *)

Section ValidationProperties.
Variable load : string → JSResult JSValue.
Variable coerce : SchemaType → JSValue → JSValue.

Lemma is_undefined_true (v : JSValue) : is_undefined v = true ↔ v = JSUndefined.
Proof. destruct v; simpl; split; congruence. Qed.

Lemma cast_object_fold_other (fields : list (string * Schema))
    (props acc : gmap string JSValue) (k : string) :
  k ∉ fields.*1 →
  fold_left
    (λ acc0 kv,
       if is_undefined (cast coerce kv.2 (get_prop props kv.1))
       then base.delete kv.1 acc0
       else <[kv.1 := cast coerce kv.2 (get_prop props kv.1)]> acc0)
    fields acc !! k
  = acc !! k.
Proof.
  revert acc.
  induction fields as [|[k' s'] fields IH]; intros acc Hk; simpl; [reflexivity|].
  simpl in Hk. apply not_elem_of_cons in Hk as [Hne Hk].
  rewrite IH by assumption.
  destruct (is_undefined _).
  - apply lookup_delete_ne. congruence.
  - apply lookup_insert_ne. congruence.
Qed.

Lemma cast_object_fold_known (fields : list (string * Schema))
    (props acc : gmap string JSValue) (k : string) (s : Schema) :
  NoDup fields.*1 → (k, s) ∈ fields →
  fold_left
    (λ acc0 kv,
       if is_undefined (cast coerce kv.2 (get_prop props kv.1))
       then base.delete kv.1 acc0
       else <[kv.1 := cast coerce kv.2 (get_prop props kv.1)]> acc0)
    fields acc !! k
  = if is_undefined (cast coerce s (get_prop props k)) then None
    else Some (cast coerce s (get_prop props k)).
Proof.
  revert acc.
  induction fields as [|[k' s'] fields IH]; intros acc Hnodup Hin; simpl.
  - apply elem_of_nil in Hin. contradiction.
  - simpl in Hnodup. apply NoDup_cons in Hnodup as [Hfresh Hnodup].
    apply elem_of_cons in Hin as [[= -> ->] | Hin].
    + rewrite cast_object_fold_other by assumption.
      destruct (is_undefined _).
      * apply lookup_delete_eq.
      * apply lookup_insert_eq.
    + apply IH; assumption.
Qed.

Lemma cast_object_unknown (fields : list (string * Schema))
    (props : gmap string JSValue) (k : string) :
  k ∉ fields.*1 → cast_object coerce fields props !! k = props !! k.
Proof. apply cast_object_fold_other. Qed.

Lemma cast_object_known (fields : list (string * Schema))
    (props : gmap string JSValue) (k : string) (s : Schema) :
  NoDup fields.*1 → (k, s) ∈ fields →
  cast_object coerce fields props !! k
  = if is_undefined (cast coerce s (get_prop props k)) then None
    else Some (cast coerce s (get_prop props k)).
Proof. apply cast_object_fold_known. Qed.

Lemma get_prop_cast_object (fields : list (string * Schema))
    (props : gmap string JSValue) (k : string) (s : Schema) :
  NoDup fields.*1 → (k, s) ∈ fields →
  get_prop (cast_object coerce fields props) k = cast coerce s (get_prop props k).
Proof.
  intros Hnodup Hin. unfold get_prop at 1.
  rewrite (cast_object_known _ _ _ _ Hnodup Hin).
  destruct (is_undefined _) eqn:E; [|reflexivity].
  apply is_undefined_true in E. rewrite E. reflexivity.
Qed.

Lemma validate_Return_inv (fields : list (string * Schema)) (v out : JSValue) :
  validate coerce fields v = Return out →
  ∃ props,
    (if typeCheck TObject v then v else coerce TObject v) = JSObject props
    ∧ out = JSObject (cast_object coerce fields props)
    ∧ ∀ k s, (k, s) ∈ fields →
        check s (get_prop (cast_object coerce fields props) k) = true.
Proof.
  unfold validate.
  destruct (if typeCheck TObject v then v else coerce TObject v); try discriminate.
  destruct (forallb _ _) eqn:Hchecks; [|discriminate].
  intros [= <-]. exists props. split; [reflexivity|]. split; [reflexivity|].
  intros k s Hin. rewrite forallb_forall in Hchecks.
  apply (Hchecks (k, s)), list_elem_of_In, Hin.
Qed.

Lemma validate_Throw_inv (fields : list (string * Schema)) (v : JSValue) (e : JSError) :
  validate coerce fields v = Throw e → e = ValidationError.
Proof.
  unfold validate.
  destruct (if typeCheck TObject v then v else coerce TObject v); try congruence.
  destruct (forallb _ _); congruence.
Qed.

Lemma ParseConfigSchema_NoDup : NoDup ParseConfigSchema.*1.
Proof. apply (bool_decide_unpack _). vm_compute. exact I. Qed.

Lemma cast_id_undefined (v : JSValue) :
  v = JSUndefined ∨ v = JSNull →
  cast coerce (yup_number ▷ nullable ▷ defined ▷ default_to JSNull) v = JSNull.
Proof. intros [-> | ->]; reflexivity. Qed.

Lemma cast_scalar (t : SchemaType) (ts : list Transform) (n d : bool)
    (dflt v : JSValue) :
  cast coerce (mkSchema t None ts n d dflt) v
  = if is_undefined v then dflt
    else
      let v1 :=
        fold_left (λ acc f, run_transform f acc) ts
          (base_transform coerce (mkSchema t None ts n d dflt) v) in
      if is_undefined v1 then dflt else v1.
Proof.
  simpl. destruct (is_undefined v) eqn:Hv.
  - rewrite Hv. destruct dflt; reflexivity.
  - destruct (is_undefined (fold_left _ _ _)); [destruct dflt; reflexivity|].
    destruct (fold_left _ _ _); reflexivity.
Qed.

Lemma check_scalar (t : SchemaType) (ts : list Transform) (n d : bool)
    (dflt v : JSValue) :
  check (mkSchema t None ts n d dflt) v
  = (is_undefined v || isType (mkSchema t None ts n d dflt) v)
    && negb (d && is_undefined v).
Proof. simpl. destruct v; rewrite andb_true_r; reflexivity. Qed.

Lemma cast_deck_not_empty (v : JSValue) :
  cast coerce (yup_string ▷ emptyAsUndefined ▷ nullAsUndefined) v ≠ JSString "".
Proof.
  change (yup_string ▷ emptyAsUndefined ▷ nullAsUndefined)
    with (mkSchema TString None [EmptyAsUndefined; NullAsUndefined] false false JSUndefined).
  rewrite cast_scalar. destruct (is_undefined v); [discriminate|].
  generalize (base_transform coerce
                (mkSchema TString None [EmptyAsUndefined; NullAsUndefined]
                   false false JSUndefined) v).
  intros b. destruct b as [| | | |d| |]; simpl; try discriminate.
  destruct (truthy_string d) eqn:Hd; simpl; [|discriminate].
  intros [= ->]. discriminate.
Qed.

Lemma check_strings (items : list JSValue) :
  forallb (check yup_string) items = true →
  Forall (λ item, item = JSUndefined ∨ ∃ s, item = JSString s) items.
Proof.
  rewrite forallb_forall, Forall_forall. intros Hall item Hin.
  apply list_elem_of_In, Hall in Hin.
  destruct item; cbn in Hin; try discriminate; eauto.
Qed.

(** What a successfully validated configuration looks like. *)
Lemma validate_ParseConfig_shape (v : JSValue) (props : gmap string JSValue) :
  validate coerce ParseConfigSchema v = Return (JSObject props) →
  (props !! "id" = Some JSNull ∨ ∃ n, props !! "id" = Some (JSNumber n))
  ∧ (props !! "deck" = None
     ∨ ∃ d, props !! "deck" = Some (JSString d) ∧ d ≠ "")
  ∧ (props !! "tags" = None
     ∨ ∃ items, props !! "tags" = Some (JSArray items)
                ∧ Forall (λ item, item = JSUndefined ∨ ∃ s, item = JSString s) items)
  ∧ (∀ flag, flag ∈ ["delete"; "enabled"; "cloze"] →
       props !! flag = None ∨ ∃ b, props !! flag = Some (JSBoolean b)).
Proof.
  intros Hvalid.
  apply validate_Return_inv in Hvalid as (p0 & _ & [= ->] & Hchecks).
  assert (∀ k s, (k, s) ∈ ParseConfigSchema →
            check s (cast coerce s (get_prop p0 k)) = true
            ∧ cast_object coerce ParseConfigSchema p0 !! k
              = if is_undefined (cast coerce s (get_prop p0 k)) then None
                else Some (cast coerce s (get_prop p0 k))) as Hfield.
  { intros k s Hin. split.
    - rewrite <- (get_prop_cast_object _ _ _ _ ParseConfigSchema_NoDup Hin).
      apply Hchecks, Hin.
    - apply cast_object_known; [apply ParseConfigSchema_NoDup | exact Hin]. }
  clear Hchecks. split; [|split; [|split]].
  - destruct (Hfield "id" _ ltac:(apply list_elem_of_here)) as [Hcheck ->].
    destruct (cast coerce _ (get_prop p0 "id")); cbn in Hcheck |- *;
      try discriminate; eauto.
  - destruct (Hfield "deck" _ ltac:(do 1 apply list_elem_of_further; apply list_elem_of_here))
      as [Hcheck ->].
    pose proof (cast_deck_not_empty (get_prop p0 "deck")) as Hne.
    destruct (cast coerce _ (get_prop p0 "deck")) as [| | | |d| |];
      cbn in Hcheck |- *; try discriminate; [left; reflexivity|].
    right. exists d. split; [reflexivity|]. intros ->. apply Hne. reflexivity.
  - destruct (Hfield "tags" _ ltac:(do 2 apply list_elem_of_further; apply list_elem_of_here))
      as [Hcheck ->].
    destruct (cast coerce _ (get_prop p0 "tags")) as [| | | | |items|];
      cbn in Hcheck |- *; try discriminate; [left; reflexivity|].
    right. exists items. split; [reflexivity|]. apply check_strings, Hcheck.
  - intros flag Hflag.
    assert ((flag, yup_boolean ▷ nullAsUndefined) ∈ ParseConfigSchema) as Hin.
    { rewrite !elem_of_cons in Hflag.
      destruct Hflag as [-> | [-> | [-> | Hnil]]];
        [| | | apply elem_of_nil in Hnil; contradiction];
        unfold ParseConfigSchema; rewrite !elem_of_cons; tauto. }
    destruct (Hfield flag _ Hin) as [Hcheck ->].
    destruct (cast coerce _ (get_prop p0 flag)); cbn in Hcheck |- *;
      try discriminate; eauto.
Qed.

Lemma ParseConfig_fromResult_Return_inv (result : ParseNoteResult) (validated : JSValue) :
  ParseConfig_fromResult load coerce result = Return validated →
  ∃ loaded,
    load (or_empty (result_config result)) = Return loaded
    ∧ validate coerce ParseConfigSchema
        (if JS_truthy loaded then loaded else JSObject {[ "id" := JSNull ]})
      = Return validated.
Proof.
  unfold ParseConfig_fromResult.
  destruct (load (or_empty (result_config result))) as [loaded|e]; [|discriminate].
  cbn. destruct (validate coerce ParseConfigSchema _) as [out|e] eqn:Hvalid;
    [|discriminate].
  intros [= <-]. exists loaded. split; [reflexivity | exact Hvalid].
Qed.

Lemma ParseConfig_fromResult_object_inv (result : ParseNoteResult)
    (loaded : gmap string JSValue) (validated : JSValue) :
  load (or_empty (result_config result)) = Return (JSObject loaded) →
  ParseConfig_fromResult load coerce result = Return validated →
  validated = JSObject (cast_object coerce ParseConfigSchema loaded).
Proof.
  intros Hload Hresult.
  apply ParseConfig_fromResult_Return_inv in Hresult as (loaded' & Hload' & Hvalid).
  rewrite Hload in Hload'. injection Hload' as <-. simpl in Hvalid.
  apply validate_Return_inv in Hvalid as (props & [= <-] & -> & _). reflexivity.
Qed.

(** X11: parsing a configuration fails only in two ways: with the very
    exception that [load] raised on the text, or with a validation error. *)
Theorem ParseConfig_fromResult_errors (result : ParseNoteResult) (e : JSError) :
  ParseConfig_fromResult load coerce result = Throw e →
  load (or_empty (result_config result)) = Throw e ∨ e = ValidationError.
Proof.
  unfold ParseConfig_fromResult.
  destruct (load (or_empty (result_config result))) as [loaded|e'].
  - cbn. destruct (validate coerce ParseConfigSchema _) as [out|e'] eqn:Hvalid;
      [discriminate|].
    intros [= <-]. right. eapply validate_Throw_inv, Hvalid.
  - intros [= <-]. left. reflexivity.
Qed.

(** X12: a configuration that parses is an object in which [id] is present
    and is null or a number, [deck] is absent or a string, [tags] is absent
    or an array of strings (or holes), and [delete], [enabled] and [cloze]
    are each absent or a boolean. *)
Theorem ParseConfig_fromResult_well_typed (result : ParseNoteResult) (validated : JSValue) :
  ParseConfig_fromResult load coerce result = Return validated →
  ∃ props,
    validated = JSObject props
    ∧ (props !! "id" = Some JSNull ∨ ∃ n, props !! "id" = Some (JSNumber n))
    ∧ (props !! "deck" = None ∨ ∃ d, props !! "deck" = Some (JSString d))
    ∧ (props !! "tags" = None
       ∨ ∃ items, props !! "tags" = Some (JSArray items)
                  ∧ Forall (λ item, item = JSUndefined ∨ ∃ s, item = JSString s) items)
    ∧ (∀ flag, flag ∈ ["delete"; "enabled"; "cloze"] →
         props !! flag = None ∨ ∃ b, props !! flag = Some (JSBoolean b)).
Proof.
  intros Hresult.
  apply ParseConfig_fromResult_Return_inv in Hresult as (loaded & _ & Hvalid).
  destruct (validate_Return_inv _ _ _ Hvalid) as (p0 & _ & -> & _).
  eexists. split; [reflexivity|].
  apply validate_ParseConfig_shape in Hvalid as (Hid & Hdeck & Htags & Hflags).
  repeat split; try assumption.
  destruct Hdeck as [Hdeck | (d & Hdeck & _)]; eauto.
Qed.

(** X13: in a configuration that parses, [deck] is never the empty string:
    it is absent or a string with at least one character. *)
Theorem ParseConfig_fromResult_deck_not_empty (result : ParseNoteResult)
    (props : gmap string JSValue) :
  ParseConfig_fromResult load coerce result = Return (JSObject props) →
  props !! "deck" ≠ Some (JSString "")
  ∧ deck (as_ParseConfig (JSObject props)) ≠ Some "".
Proof.
  intros Hresult.
  apply ParseConfig_fromResult_Return_inv in Hresult as (loaded & _ & Hvalid).
  apply validate_ParseConfig_shape in Hvalid as (_ & Hdeck & _).
  simpl. unfold get_prop.
  destruct Hdeck as [-> | (d & -> & Hd)]; simpl; split; congruence.
Qed.

(** X14: when the text loads to an object, parsing keeps a numeric [id] as
    it is and turns an absent or null [id] into null. *)
Theorem ParseConfig_fromResult_id (result : ParseNoteResult)
    (loaded props : gmap string JSValue) :
  load (or_empty (result_config result)) = Return (JSObject loaded) →
  ParseConfig_fromResult load coerce result = Return (JSObject props) →
  (loaded !! "id" = None ∨ loaded !! "id" = Some JSNull → props !! "id" = Some JSNull)
  ∧ (∀ n, loaded !! "id" = Some (JSNumber n) → props !! "id" = Some (JSNumber n)).
Proof.
  intros Hload Hresult.
  apply (ParseConfig_fromResult_object_inv _ _ _ Hload) in Hresult as [= ->].
  assert (("id", yup_number ▷ nullable ▷ defined ▷ default_to JSNull) ∈ ParseConfigSchema)
    as Hin by apply list_elem_of_here.
  rewrite (cast_object_known _ _ _ _ ParseConfigSchema_NoDup Hin).
  unfold get_prop. split.
  - intros [-> | ->]; reflexivity.
  - intros n ->. reflexivity.
Qed.

(** X15: parsing keeps every key that the schema does not know, with the
    value it was loaded with. *)
Theorem ParseConfig_fromResult_keeps_unknown_keys (result : ParseNoteResult)
    (loaded props : gmap string JSValue) (key : string) :
  load (or_empty (result_config result)) = Return (JSObject loaded) →
  ParseConfig_fromResult load coerce result = Return (JSObject props) →
  key ∉ ["id"; "deck"; "tags"; "delete"; "enabled"; "cloze"] →
  props !! key = loaded !! key.
Proof.
  intros Hload Hresult Hkey.
  apply (ParseConfig_fromResult_object_inv _ _ _ Hload) in Hresult as [= ->].
  apply cast_object_unknown. exact Hkey.
Qed.

(** X16: a configuration text that loads to a falsy value (undefined, null,
    false, zero or the empty string) parses like an empty block, to
    [{id: null}]. *)
Theorem ParseConfig_fromResult_falsy (result : ParseNoteResult) (loaded : JSValue) :
  load (or_empty (result_config result)) = Return loaded →
  JS_truthy loaded = false →
  ParseConfig_fromResult load coerce result = Return (JSObject {[ "id" := JSNull ]}).
Proof.
  intros Hload Hfalsy. unfold ParseConfig_fromResult.
  rewrite Hload. cbn. rewrite Hfalsy, validate_default_object. reflexivity.
Qed.

Lemma cast_object_fixed (fields : list (string * Schema)) (props : gmap string JSValue) :
  NoDup fields.*1 →
  (∀ k s, (k, s) ∈ fields →
     cast coerce s (get_prop props k) = get_prop props k
     ∧ props !! k ≠ Some JSUndefined) →
  cast_object coerce fields props = props.
Proof.
  intros Hnodup Hfixed. apply map_eq. intros k.
  destruct (decide (k ∈ fields.*1)) as [Hin|Hout];
    [|apply cast_object_unknown, Hout].
  apply list_elem_of_fmap in Hin as ([k' s] & -> & Hin). simpl.
  rewrite (cast_object_known _ _ _ _ Hnodup Hin).
  destruct (Hfixed _ _ Hin) as [-> Hdefined]. unfold get_prop.
  destruct (props !! k') as [v|]; [|reflexivity].
  destruct v; simpl; try reflexivity. congruence.
Qed.

Lemma cast_strings_fixed (items : list JSValue) :
  Forall (λ item, item = JSUndefined ∨ ∃ s, item = JSString s) items →
  map (cast coerce yup_string) items = items
  ∧ forallb (check yup_string) items = true.
Proof.
  induction 1 as [|item items Hitem _ [IHmap IHcheck]]; [split; reflexivity|].
  split.
  - change (cast coerce yup_string item :: map (cast coerce yup_string) items
            = item :: items).
    rewrite IHmap. destruct Hitem as [-> | [s ->]]; reflexivity.
  - change (check yup_string item && forallb (check yup_string) items = true).
    rewrite IHcheck. destruct Hitem as [-> | [s ->]]; reflexivity.
Qed.

(** A validated configuration is a fixed point of every field's cast and
    passes every field's tests. *)
Lemma ParseConfig_shape_fixed (props : gmap string JSValue) :
  (props !! "id" = Some JSNull ∨ ∃ n, props !! "id" = Some (JSNumber n)) →
  (props !! "deck" = None ∨ ∃ d, props !! "deck" = Some (JSString d) ∧ d ≠ "") →
  (props !! "tags" = None
   ∨ ∃ items, props !! "tags" = Some (JSArray items)
              ∧ Forall (λ item, item = JSUndefined ∨ ∃ s, item = JSString s) items) →
  (∀ flag, flag ∈ ["delete"; "enabled"; "cloze"] →
     props !! flag = None ∨ ∃ b, props !! flag = Some (JSBoolean b)) →
  ∀ k s, (k, s) ∈ ParseConfigSchema →
    cast coerce s (get_prop props k) = get_prop props k
    ∧ props !! k ≠ Some JSUndefined
    ∧ check s (get_prop props k) = true.
Proof.
  intros Hid Hdeck Htags Hflags k s Hin.
  assert (∀ flag, flag ∈ ["delete"; "enabled"; "cloze"] →
            cast coerce (yup_boolean ▷ nullAsUndefined) (get_prop props flag)
              = get_prop props flag
            ∧ props !! flag ≠ Some JSUndefined
            ∧ check (yup_boolean ▷ nullAsUndefined) (get_prop props flag) = true)
    as Hflag.
  { intros flag Hflag. unfold get_prop.
    destruct (Hflags flag Hflag) as [-> | [b ->]]; repeat split; discriminate. }
  unfold ParseConfigSchema in Hin. rewrite !elem_of_cons, elem_of_nil in Hin.
  destruct Hin as [[= -> ->] | [[= -> ->] | [[= -> ->] | [[= -> ->] | [[= -> ->] | [[= -> ->] | []]]]]]].
  - unfold get_prop.
    destruct Hid as [-> | [n ->]]; repeat split; discriminate.
  - unfold get_prop.
    destruct Hdeck as [-> | (d & -> & Hd)]; [repeat split; discriminate|].
    apply truthy_string_spec in Hd. simpl. unfold base_transform. simpl.
    rewrite Hd. repeat split; discriminate.
  - unfold get_prop.
    destruct Htags as [-> | (items & -> & Hitems)]; [repeat split; discriminate|].
    apply cast_strings_fixed in Hitems as [Hmap Hcheck].
    change (default JSUndefined (Some (JSArray items))) with (JSArray items).
    change (cast coerce _ (JSArray items))
      with (JSArray (map (cast coerce yup_string) items)).
    change (check _ (JSArray items)) with (forallb (check yup_string) items).
    rewrite Hmap, Hcheck. repeat split; discriminate.
  - apply Hflag. rewrite !elem_of_cons. tauto.
  - apply Hflag. rewrite !elem_of_cons. tauto.
  - apply Hflag. rewrite !elem_of_cons. tauto.
Qed.

(** X17: validation is idempotent on what parsing returns: a parsed
    configuration validates again, to itself. *)
Theorem ParseConfig_fromResult_revalidates (result : ParseNoteResult) (validated : JSValue) :
  ParseConfig_fromResult load coerce result = Return validated →
  validate coerce ParseConfigSchema validated = Return validated.
Proof.
  intros Hresult.
  apply ParseConfig_fromResult_Return_inv in Hresult as (loaded & _ & Hvalid).
  destruct (validate_Return_inv _ _ _ Hvalid) as (p0 & _ & -> & _).
  apply validate_ParseConfig_shape in Hvalid as (Hid & Hdeck & Htags & Hflags).
  pose proof (ParseConfig_shape_fixed _ Hid Hdeck Htags Hflags) as Hfixed.
  set (props := cast_object coerce ParseConfigSchema p0) in *.
  unfold validate. simpl typeCheck. cbv iota.
  rewrite (cast_object_fixed ParseConfigSchema props ParseConfigSchema_NoDup)
    by (intros k s Hin; destruct (Hfixed k s Hin) as (? & ? & ?); tauto).
  assert (forallb (λ kv : string * Schema, check kv.2 (get_prop props kv.1))
            ParseConfigSchema = true) as ->; [|reflexivity].
  apply forallb_forall. intros [k s] Hin. apply list_elem_of_In in Hin.
  apply (Hfixed k s Hin).
Qed.

(** A schema whose fields are all [yup.<type>().defined()], run on an object
    whose values already have that type. *)
Lemma validate_defined_fields (t : SchemaType) (keys : list string)
    (props : gmap string JSValue) :
  NoDup keys →
  (∀ k, k ∈ keys →
     props !! k = None ∨ ∃ v, props !! k = Some v ∧ typeCheck t v = true) →
  validate coerce (map (λ k, (k, mkSchema t None [] false true JSUndefined)) keys)
    (JSObject props)
  = if bool_decide (Forall (λ k, is_Some (props !! k)) keys)
    then Return (JSObject props) else Throw ValidationError.
Proof.
  clear load. intros Hnodup Htyped.
  set (s := mkSchema t None [] false true JSUndefined).
  set (fields := map (λ k, (k, s)) keys).
  assert (fields.*1 = keys) as Hkeys.
  { subst fields. clear. induction keys as [|k keys IH]; simpl; [reflexivity|].
    f_equal. exact IH. }
  assert (∀ k, k ∈ keys →
            cast coerce s (get_prop props k) = get_prop props k
            ∧ props !! k ≠ Some JSUndefined
            ∧ check s (get_prop props k) = bool_decide (is_Some (props !! k)))
    as Hfield.
  { intros k Hk. subst s. rewrite cast_scalar, check_scalar. unfold get_prop.
    destruct (Htyped k Hk) as [-> | (v & -> & Hv)].
    - repeat split; discriminate.
    - assert (is_undefined v = false) as Hdefined
        by (destruct t, v; simpl in Hv |- *; congruence).
      assert (isType (mkSchema t None [] false true JSUndefined) v = true) as Htype
        by (unfold isType; simpl; exact Hv).
      simpl default. unfold base_transform. rewrite Hdefined, Htype. simpl.
      rewrite Hdefined. repeat split. intros [= ->]. discriminate. }
  unfold validate. simpl typeCheck. cbv iota.
  rewrite (cast_object_fixed fields props).
  - assert (forallb (λ kv : string * Schema, check kv.2 (get_prop props kv.1)) fields
            = bool_decide (Forall (λ k, is_Some (props !! k)) keys)) as ->;
      [|reflexivity].
    subst fields. clear Hkeys Hnodup Htyped.
    induction keys as [|k keys IH]; [reflexivity|].
    cbn [map forallb fst snd].
    destruct (Hfield k ltac:(apply list_elem_of_here)) as (_ & _ & ->).
    rewrite IH by (intros k' Hk'; apply Hfield, list_elem_of_further, Hk').
    destruct (decide (is_Some (props !! k))) as [Hk|Hk].
    + rewrite (bool_decide_eq_true_2 _ Hk). simpl.
      apply bool_decide_ext. rewrite Forall_cons. tauto.
    + rewrite (bool_decide_eq_false_2 _ Hk). simpl. symmetry.
      apply bool_decide_eq_false_2. rewrite Forall_cons. tauto.
  - rewrite Hkeys. exact Hnodup.
  - intros k s' Hin. subst fields.
    apply list_elem_of_In, in_map_iff in Hin as (k' & [= <- <-] & Hk').
    apply list_elem_of_In in Hk'.
    destruct (Hfield k' Hk') as (? & ? & _). tauto.
Qed.

(** X18: a location marker whose [offset], [line] and [column] are numbers
    where present validates to itself when all three are present, and is
    rejected with a validation error when one of them is missing. *)
Theorem ParseLocationMarkerSchema_validate (props : gmap string JSValue) :
  (∀ k, k ∈ ["offset"; "line"; "column"] →
     props !! k = None ∨ ∃ n, props !! k = Some (JSNumber n)) →
  validate coerce ParseLocationMarkerSchema (JSObject props)
  = if bool_decide (Forall (λ k, is_Some (props !! k)) ["offset"; "line"; "column"])
    then Return (JSObject props) else Throw ValidationError.
Proof.
  intros Hnumbers.
  apply (validate_defined_fields TNumber ["offset"; "line"; "column"]).
  - apply (bool_decide_unpack _). vm_compute. exact I.
  - intros k Hk. destruct (Hnumbers k Hk) as [-> | [n ->]]; eauto.
Qed.

(** X19: a parsed line whose [type] and [text] are strings where present
    validates to itself when both are present, and is rejected with a
    validation error when one of them is missing. *)
Theorem ParseLineResultSchema_validate (props : gmap string JSValue) :
  (∀ k, k ∈ ["type"; "text"] →
     props !! k = None ∨ ∃ s, props !! k = Some (JSString s)) →
  validate coerce ParseLineResultSchema (JSObject props)
  = if bool_decide (Forall (λ k, is_Some (props !! k)) ["type"; "text"])
    then Return (JSObject props) else Throw ValidationError.
Proof.
  intros Hstrings.
  apply (validate_defined_fields TString ["type"; "text"]).
  - apply (bool_decide_unpack _). vm_compute. exact I.
  - intros k Hk. destruct (Hstrings k Hk) as [-> | [s ->]]; eauto.
Qed.

End ValidationProperties.

(** *** Concrete runs of the further properties *)

Lemma getTags_inherited_tail_NoDup_witness :
  ∃ rest,
    getTags vault_getAllTags exam_note
      (vault_plugin None true (Some ["#Bio/Cells"; "#exam"]))
    = "obsidian" :: rest
    ∧ NoDup rest
    ∧ sublist rest
        (inheritedTags vault_getAllTags exam_note
           (vault_plugin None true (Some ["#Bio/Cells"; "#exam"]))
         ++ ["exam"])%list.
Proof.
  apply (getTags_inherited_tail_NoDup vault_getAllTags exam_note
           (vault_plugin None true (Some ["#Bio/Cells"; "#exam"]))
           ["#Bio/Cells"; "#exam"] ["#Bio/Cells"; "#exam"]); reflexivity.
Defined.

Lemma getTags_without_document_tags_witness :
  getTags vault_getAllTags exam_note (vault_plugin None true None)
  = ["obsidian"; "exam"].
Proof.
  apply (getTags_without_document_tags vault_getAllTags exam_note
           (vault_plugin None true None)).
  right. reflexivity.
Defined.

Lemma getTags_document_tags_without_slash_witness :
  "Bio::Cells" = "obsidian"
  ∨ "Bio::Cells" ∈ ["exam"]
  ∨ contains_char "/" "Bio::Cells" = false.
Proof.
  apply (getTags_document_tags_without_slash vault_getAllTags exam_note
           (vault_plugin None true (Some ["#Bio/Cells"; "#exam"])) "Bio::Cells").
  change ("Bio::Cells" ∈ ["obsidian"; "Bio::Cells"; "exam"]).
  apply list_elem_of_further, list_elem_of_here.
Defined.

Lemma getDeckName_nonempty_witness :
  getDeckName vault_getDefaultDeckForFolder basic_note (vault_plugin (Some false) false None)
  ≠ "".
Proof.
  apply (getDeckName_nonempty vault_getDefaultDeckForFolder basic_note
           (vault_plugin (Some false) false None)).
  discriminate.
Defined.

Lemma getDeckName_mirror_shape_witness :
  ∃ rest,
    getDeckName vault_getDefaultDeckForFolder basic_note (vault_plugin (Some true) false None)
    = "MyDeck" +:+ "::" +:+ rest
    ∧ contains_char "/" rest = false
    ∧ (contains_char "/" "Biology/Cells.md" = false → rest = "Biology/Cells.md").
Proof.
  apply (getDeckName_mirror_shape vault_getDefaultDeckForFolder basic_note
           (vault_plugin (Some true) false None)).
  reflexivity.
Defined.

Lemma normalise_after_fieldsToAnkiFields_witness :
  normaliseNoteInfoFields basic_note basic_record
  = Return {| Frontlike := Some "cell"; Backlike := Some "" |}.
Proof.
  apply (normalise_after_fieldsToAnkiFields basic_note
           {| Frontlike := Some "cell"; Backlike := None |} basic_record).
  - reflexivity.
  - vm_compute. reflexivity.
Defined.

Lemma fieldsToAnkiFields_after_normalise_witness :
  fieldsToAnkiFields basic_note {| Frontlike := Some "a {{c1::cell}}"; Backlike := Some "hint" |}
    !! "Front"
    = value <$> noteInfo_fields cloze_record !! "Text"
  ∧ fieldsToAnkiFields basic_note {| Frontlike := Some "a {{c1::cell}}"; Backlike := Some "hint" |}
      !! "Back"
    = value <$> noteInfo_fields cloze_record !! "Back Extra".
Proof.
  apply (fieldsToAnkiFields_after_normalise cloze_note basic_note cloze_record
           {| Frontlike := Some "a {{c1::cell}}"; Backlike := Some "hint" |}).
  reflexivity.
Defined.

Lemma ParseConfig_fromResult_errors_witness :
  vault_load (or_empty (result_config (vault_result (Some "deck: [")))) = Throw YAMLException
  ∨ YAMLException = ValidationError.
Proof.
  apply (ParseConfig_fromResult_errors vault_load vault_coerce
           (vault_result (Some "deck: [")) YAMLException).
  reflexivity.
Defined.

Lemma deck_text_parses :
  ParseConfig_fromResult deck_load vault_coerce (vault_result (Some deck_text))
  = Return (JSObject deck_validated).
Proof. vm_compute. reflexivity. Qed.

Lemma ParseConfig_fromResult_well_typed_witness :
  ∃ props,
    JSObject deck_validated = JSObject props
    ∧ (props !! "id" = Some JSNull ∨ ∃ n, props !! "id" = Some (JSNumber n))
    ∧ (props !! "deck" = None ∨ ∃ d, props !! "deck" = Some (JSString d))
    ∧ (props !! "tags" = None
       ∨ ∃ items, props !! "tags" = Some (JSArray items)
                  ∧ Forall (λ item, item = JSUndefined ∨ ∃ s, item = JSString s) items)
    ∧ (∀ flag, flag ∈ ["delete"; "enabled"; "cloze"] →
         props !! flag = None ∨ ∃ b, props !! flag = Some (JSBoolean b)).
Proof.
  apply (ParseConfig_fromResult_well_typed deck_load vault_coerce
           (vault_result (Some deck_text)) (JSObject deck_validated)).
  vm_compute. reflexivity.
Defined.

Lemma ParseConfig_fromResult_deck_not_empty_witness :
  deck_validated !! "deck" ≠ Some (JSString "")
  ∧ deck (as_ParseConfig (JSObject deck_validated)) ≠ Some "".
Proof.
  apply (ParseConfig_fromResult_deck_not_empty deck_load vault_coerce
           (vault_result (Some deck_text)) deck_validated).
  vm_compute. reflexivity.
Defined.

Lemma ParseConfig_fromResult_id_witness :
  (deck_loaded !! "id" = None ∨ deck_loaded !! "id" = Some JSNull →
   deck_validated !! "id" = Some JSNull)
  ∧ (∀ n, deck_loaded !! "id" = Some (JSNumber n) →
          deck_validated !! "id" = Some (JSNumber n)).
Proof.
  apply (ParseConfig_fromResult_id deck_load vault_coerce
           (vault_result (Some deck_text)) deck_loaded deck_validated).
  - reflexivity.
  - vm_compute. reflexivity.
Defined.

Lemma ParseConfig_fromResult_keeps_unknown_keys_witness :
  deck_validated !! "note" = deck_loaded !! "note".
Proof.
  apply (ParseConfig_fromResult_keeps_unknown_keys deck_load vault_coerce
           (vault_result (Some deck_text)) deck_loaded deck_validated "note").
  - reflexivity.
  - vm_compute. reflexivity.
  - rewrite !not_elem_of_cons. repeat split; try discriminate. apply not_elem_of_nil.
Defined.

Lemma ParseConfig_fromResult_falsy_witness :
  ParseConfig_fromResult (vault_load_one "false" (JSBoolean false)) vault_coerce
    (vault_result (Some "false"))
  = Return (JSObject {[ "id" := JSNull ]}).
Proof.
  apply (ParseConfig_fromResult_falsy (vault_load_one "false" (JSBoolean false))
           vault_coerce (vault_result (Some "false")) (JSBoolean false));
    reflexivity.
Defined.

Lemma ParseConfig_fromResult_revalidates_witness :
  validate vault_coerce ParseConfigSchema (JSObject deck_validated)
  = Return (JSObject deck_validated).
Proof.
  apply (ParseConfig_fromResult_revalidates deck_load vault_coerce
           (vault_result (Some deck_text)) (JSObject deck_validated)).
  vm_compute. reflexivity.
Defined.

Lemma ParseLocationMarkerSchema_validate_witness :
  validate vault_coerce ParseLocationMarkerSchema (JSObject start_marker)
  = if bool_decide (Forall (λ k, is_Some (start_marker !! k)) ["offset"; "line"; "column"])
    then Return (JSObject start_marker) else Throw ValidationError.
Proof.
  apply (ParseLocationMarkerSchema_validate vault_coerce start_marker).
  intros k Hk. rewrite !elem_of_cons, elem_of_nil in Hk.
  destruct Hk as [-> | [-> | [-> | []]]]; right; eexists; reflexivity.
Defined.

Lemma ParseLineResultSchema_validate_witness :
  validate vault_coerce ParseLineResultSchema (JSObject heading_line)
  = if bool_decide (Forall (λ k, is_Some (heading_line !! k)) ["type"; "text"])
    then Return (JSObject heading_line) else Throw ValidationError.
Proof.
  apply (ParseLineResultSchema_validate vault_coerce heading_line).
  intros k Hk. rewrite !elem_of_cons, elem_of_nil in Hk.
  destruct Hk as [-> | [-> | []]]; right; eexists; reflexivity.
Defined.
